(** * django-notifications: the notification model, its query scopes,
      the notify handler and the web views, embedded in Rocq.

    Sources embedded here:
    - [notifications/utils.py]        (slug arithmetic)
    - [notifications/base/models.py]  (NotificationQuerySet,
                                       AbstractNotification, notify_handler)
    - [notifications/views.py]        (list, action and JSON views)

    Python values are dynamically typed, so attribute and keyword values
    are elements of one type [Value]; integers are unbounded ([Z]).
    The relational store is a list of rows in insertion order; a queryset
    is a lazy restriction over it.  Exceptions are explicit results. *)

From Stdlib Require Import ZArith List String Bool Lia.
Import ListNotations.

Open Scope string_scope.
Open Scope list_scope.
Open Scope Z_scope.

(** ** Python values *)

(** A model instance as far as the handler looks at it: its primary key,
    the content type of its own (possibly proxy) model class and the
    content type of the concrete model behind it.  A user's [id] is its
    primary key. *)
Record ModelObj := {
  pk : Z;
  content_type : Z;
  concrete_content_type : Z
}.

#[local] Set Warnings "-register-all".
Inductive Value :=
| VNone
| VBool (b : bool)
| VInt (z : Z)
| VStr (s : string)
| VObj (o : ModelObj)               (* a model instance: user, target, ... *)
| VGroup (g : ModelObj) (user_set : list ModelObj) (* auth.models.Group *)
| VList (items : list Value)        (* a list or a QuerySet *)
| VDict (d : list (string * Value)).

(** [bool(x)] / the truth value used by [if x:]. *)
Definition truthy (v : Value) : bool :=
  match v with
  | VNone => false
  | VBool b => b
  | VInt z => negb (z =? 0)
  | VStr s => negb (String.eqb s EmptyString)
  | VObj _ => true
  | VGroup _ _ => true
  | VList l => match l with [] => false | _ => true end
  | VDict d => match d with [] => false | _ => true end
  end.

(** Equality as the store compares a scalar column with a lookup value. *)
Definition value_eqb (a b : Value) : bool :=
  match a, b with
  | VNone, VNone => true
  | VBool x, VBool y => Bool.eqb x y
  | VInt x, VInt y => x =? y
  | VStr x, VStr y => String.eqb x y
  | _, _ => false
  end.

(** ** Exceptions and results *)

Inductive Exc :=
| KeyError (key : string)
| AttributeError (name : string)
| FieldError (keyword : string)
| FieldDoesNotExist (name : string)
| ImproperlyConfigured (msg : string)
| ValueError (what : string)
| Http404
| MultipleObjectsReturned.

Inductive result (A : Type) :=
| Ok (a : A)
| Raise (e : Exc).
Arguments Ok {A} a.
Arguments Raise {A} e.

Definition rbind {A B} (r : result A) (k : A -> result B) : result B :=
  match r with
  | Ok a => k a
  | Raise e => Raise e
  end.

(** ** Keyword dictionaries ([**kwargs]): insertion ordered, unique keys *)

Definition Kwargs := list (string * Value).

Fixpoint kw_get (key : string) (kw : Kwargs) : option Value :=
  match kw with
  | [] => None
  | (k, v) :: rest => if String.eqb k key then Some v else kw_get key rest
  end.

Definition kw_remove (key : string) (kw : Kwargs) : Kwargs :=
  filter (fun kv => negb (String.eqb (fst kv) key)) kw.

(** [kwargs.pop(key)]: raises KeyError when the key is absent. *)
Definition kw_pop (key : string) (kw : Kwargs) : result (Value * Kwargs) :=
  match kw_get key kw with
  | Some v => Ok (v, kw_remove key kw)
  | None => Raise (KeyError key)
  end.

(** [kwargs.pop(key, default)]. *)
Definition kw_pop_default (key : string) (default : Value) (kw : Kwargs)
  : Value * Kwargs :=
  match kw_get key kw with
  | Some v => (v, kw_remove key kw)
  | None => (default, kw)
  end.

(** [list(kwargs.keys())]. *)
Definition kw_keys (kw : Kwargs) : list string := map fst kw.

(** ** notifications/utils.py *)

Definition slug2id (slug : Z) : Z := slug - 110909.

Definition id2slug (notification_id : Z) : Z := notification_id + 110909.

(** ** notifications/base/models.py: the entity *)

(** [AbstractNotification]: one attribute per column.  The attributes are
    Python values: a freshly built instance has [id = None] until it is
    saved, the handler stores whatever the caller passed for description,
    timestamp and level, and [setattr] from extra keywords can put any
    value anywhere.  [actor_content_type] and its siblings hold the key
    of the ContentType row the foreign key points at. *)
Record Notification := mkNotification {
  id : Value;
  level : Value;
  recipient : Value;
  unread : Value;
  actor_content_type : Value;
  actor_object_id : Value;
  verb : Value;
  description : Value;
  target_content_type : Value;
  target_object_id : Value;
  action_object_content_type : Value;
  action_object_object_id : Value;
  timestamp : Value;
  public : Value;
  deleted : Value;
  emailed : Value;
  data : Value
}.

Definition set_id (v : Value) (n : Notification) : Notification :=
  {| id := v; level := level n; recipient := recipient n;
     unread := unread n; actor_content_type := actor_content_type n;
     actor_object_id := actor_object_id n; verb := verb n;
     description := description n;
     target_content_type := target_content_type n;
     target_object_id := target_object_id n;
     action_object_content_type := action_object_content_type n;
     action_object_object_id := action_object_object_id n;
     timestamp := timestamp n; public := public n; deleted := deleted n;
     emailed := emailed n; data := data n |}.

Definition set_level (v : Value) (n : Notification) : Notification :=
  {| id := id n; level := v; recipient := recipient n; unread := unread n;
     actor_content_type := actor_content_type n;
     actor_object_id := actor_object_id n; verb := verb n;
     description := description n;
     target_content_type := target_content_type n;
     target_object_id := target_object_id n;
     action_object_content_type := action_object_content_type n;
     action_object_object_id := action_object_object_id n;
     timestamp := timestamp n; public := public n; deleted := deleted n;
     emailed := emailed n; data := data n |}.

Definition set_recipient (v : Value) (n : Notification) : Notification :=
  {| id := id n; level := level n; recipient := v; unread := unread n;
     actor_content_type := actor_content_type n;
     actor_object_id := actor_object_id n; verb := verb n;
     description := description n;
     target_content_type := target_content_type n;
     target_object_id := target_object_id n;
     action_object_content_type := action_object_content_type n;
     action_object_object_id := action_object_object_id n;
     timestamp := timestamp n; public := public n; deleted := deleted n;
     emailed := emailed n; data := data n |}.

Definition set_unread (v : Value) (n : Notification) : Notification :=
  {| id := id n; level := level n; recipient := recipient n; unread := v;
     actor_content_type := actor_content_type n;
     actor_object_id := actor_object_id n; verb := verb n;
     description := description n;
     target_content_type := target_content_type n;
     target_object_id := target_object_id n;
     action_object_content_type := action_object_content_type n;
     action_object_object_id := action_object_object_id n;
     timestamp := timestamp n; public := public n; deleted := deleted n;
     emailed := emailed n; data := data n |}.

Definition set_actor_content_type (v : Value) (n : Notification) : Notification :=
  {| id := id n; level := level n; recipient := recipient n;
     unread := unread n; actor_content_type := v;
     actor_object_id := actor_object_id n; verb := verb n;
     description := description n;
     target_content_type := target_content_type n;
     target_object_id := target_object_id n;
     action_object_content_type := action_object_content_type n;
     action_object_object_id := action_object_object_id n;
     timestamp := timestamp n; public := public n; deleted := deleted n;
     emailed := emailed n; data := data n |}.

Definition set_actor_object_id (v : Value) (n : Notification) : Notification :=
  {| id := id n; level := level n; recipient := recipient n;
     unread := unread n; actor_content_type := actor_content_type n;
     actor_object_id := v; verb := verb n; description := description n;
     target_content_type := target_content_type n;
     target_object_id := target_object_id n;
     action_object_content_type := action_object_content_type n;
     action_object_object_id := action_object_object_id n;
     timestamp := timestamp n; public := public n; deleted := deleted n;
     emailed := emailed n; data := data n |}.

Definition set_verb (v : Value) (n : Notification) : Notification :=
  {| id := id n; level := level n; recipient := recipient n;
     unread := unread n; actor_content_type := actor_content_type n;
     actor_object_id := actor_object_id n; verb := v;
     description := description n;
     target_content_type := target_content_type n;
     target_object_id := target_object_id n;
     action_object_content_type := action_object_content_type n;
     action_object_object_id := action_object_object_id n;
     timestamp := timestamp n; public := public n; deleted := deleted n;
     emailed := emailed n; data := data n |}.

Definition set_description (v : Value) (n : Notification) : Notification :=
  {| id := id n; level := level n; recipient := recipient n;
     unread := unread n; actor_content_type := actor_content_type n;
     actor_object_id := actor_object_id n; verb := verb n;
     description := v; target_content_type := target_content_type n;
     target_object_id := target_object_id n;
     action_object_content_type := action_object_content_type n;
     action_object_object_id := action_object_object_id n;
     timestamp := timestamp n; public := public n; deleted := deleted n;
     emailed := emailed n; data := data n |}.

Definition set_target_content_type (v : Value) (n : Notification) : Notification :=
  {| id := id n; level := level n; recipient := recipient n;
     unread := unread n; actor_content_type := actor_content_type n;
     actor_object_id := actor_object_id n; verb := verb n;
     description := description n; target_content_type := v;
     target_object_id := target_object_id n;
     action_object_content_type := action_object_content_type n;
     action_object_object_id := action_object_object_id n;
     timestamp := timestamp n; public := public n; deleted := deleted n;
     emailed := emailed n; data := data n |}.

Definition set_target_object_id (v : Value) (n : Notification) : Notification :=
  {| id := id n; level := level n; recipient := recipient n;
     unread := unread n; actor_content_type := actor_content_type n;
     actor_object_id := actor_object_id n; verb := verb n;
     description := description n;
     target_content_type := target_content_type n; target_object_id := v;
     action_object_content_type := action_object_content_type n;
     action_object_object_id := action_object_object_id n;
     timestamp := timestamp n; public := public n; deleted := deleted n;
     emailed := emailed n; data := data n |}.

Definition set_action_object_content_type (v : Value) (n : Notification) : Notification :=
  {| id := id n; level := level n; recipient := recipient n;
     unread := unread n; actor_content_type := actor_content_type n;
     actor_object_id := actor_object_id n; verb := verb n;
     description := description n;
     target_content_type := target_content_type n;
     target_object_id := target_object_id n;
     action_object_content_type := v;
     action_object_object_id := action_object_object_id n;
     timestamp := timestamp n; public := public n; deleted := deleted n;
     emailed := emailed n; data := data n |}.

Definition set_action_object_object_id (v : Value) (n : Notification) : Notification :=
  {| id := id n; level := level n; recipient := recipient n;
     unread := unread n; actor_content_type := actor_content_type n;
     actor_object_id := actor_object_id n; verb := verb n;
     description := description n;
     target_content_type := target_content_type n;
     target_object_id := target_object_id n;
     action_object_content_type := action_object_content_type n;
     action_object_object_id := v; timestamp := timestamp n;
     public := public n; deleted := deleted n; emailed := emailed n;
     data := data n |}.

Definition set_timestamp (v : Value) (n : Notification) : Notification :=
  {| id := id n; level := level n; recipient := recipient n;
     unread := unread n; actor_content_type := actor_content_type n;
     actor_object_id := actor_object_id n; verb := verb n;
     description := description n;
     target_content_type := target_content_type n;
     target_object_id := target_object_id n;
     action_object_content_type := action_object_content_type n;
     action_object_object_id := action_object_object_id n; timestamp := v;
     public := public n; deleted := deleted n; emailed := emailed n;
     data := data n |}.

Definition set_public (v : Value) (n : Notification) : Notification :=
  {| id := id n; level := level n; recipient := recipient n;
     unread := unread n; actor_content_type := actor_content_type n;
     actor_object_id := actor_object_id n; verb := verb n;
     description := description n;
     target_content_type := target_content_type n;
     target_object_id := target_object_id n;
     action_object_content_type := action_object_content_type n;
     action_object_object_id := action_object_object_id n;
     timestamp := timestamp n; public := v; deleted := deleted n;
     emailed := emailed n; data := data n |}.

Definition set_deleted (v : Value) (n : Notification) : Notification :=
  {| id := id n; level := level n; recipient := recipient n;
     unread := unread n; actor_content_type := actor_content_type n;
     actor_object_id := actor_object_id n; verb := verb n;
     description := description n;
     target_content_type := target_content_type n;
     target_object_id := target_object_id n;
     action_object_content_type := action_object_content_type n;
     action_object_object_id := action_object_object_id n;
     timestamp := timestamp n; public := public n; deleted := v;
     emailed := emailed n; data := data n |}.

Definition set_emailed (v : Value) (n : Notification) : Notification :=
  {| id := id n; level := level n; recipient := recipient n;
     unread := unread n; actor_content_type := actor_content_type n;
     actor_object_id := actor_object_id n; verb := verb n;
     description := description n;
     target_content_type := target_content_type n;
     target_object_id := target_object_id n;
     action_object_content_type := action_object_content_type n;
     action_object_object_id := action_object_object_id n;
     timestamp := timestamp n; public := public n; deleted := deleted n;
     emailed := v; data := data n |}.

Definition set_data (v : Value) (n : Notification) : Notification :=
  {| id := id n; level := level n; recipient := recipient n;
     unread := unread n; actor_content_type := actor_content_type n;
     actor_object_id := actor_object_id n; verb := verb n;
     description := description n;
     target_content_type := target_content_type n;
     target_object_id := target_object_id n;
     action_object_content_type := action_object_content_type n;
     action_object_object_id := action_object_object_id n;
     timestamp := timestamp n; public := public n; deleted := deleted n;
     emailed := emailed n; data := v |}.

(** The columns of the table. *)
Inductive Column :=
| c_id
| c_level
| c_recipient
| c_unread
| c_actor_content_type
| c_actor_object_id
| c_verb
| c_description
| c_target_content_type
| c_target_object_id
| c_action_object_content_type
| c_action_object_object_id
| c_timestamp
| c_public
| c_deleted
| c_emailed
| c_data.

(** The names that resolve to a column: the declared fields, and [pk] as
    the alias of the primary key.  Methods, properties and the generic
    foreign key descriptors of the class are not data and are not
    represented: a keyword that names one of them is outside this
    model. *)
Definition column_of_name (name : string) : option Column :=
  if String.eqb name "id" then Some c_id
  else if String.eqb name "level" then Some c_level
  else if String.eqb name "recipient" then Some c_recipient
  else if String.eqb name "unread" then Some c_unread
  else if String.eqb name "actor_content_type" then Some c_actor_content_type
  else if String.eqb name "actor_object_id" then Some c_actor_object_id
  else if String.eqb name "verb" then Some c_verb
  else if String.eqb name "description" then Some c_description
  else if String.eqb name "target_content_type" then Some c_target_content_type
  else if String.eqb name "target_object_id" then Some c_target_object_id
  else if String.eqb name "action_object_content_type" then Some c_action_object_content_type
  else if String.eqb name "action_object_object_id" then Some c_action_object_object_id
  else if String.eqb name "timestamp" then Some c_timestamp
  else if String.eqb name "public" then Some c_public
  else if String.eqb name "deleted" then Some c_deleted
  else if String.eqb name "emailed" then Some c_emailed
  else if String.eqb name "data" then Some c_data
  else if String.eqb name "pk" then Some c_id
  else None.

Definition get_column (c : Column) (n : Notification) : Value :=
  match c with
  | c_id => id n
  | c_level => level n
  | c_recipient => recipient n
  | c_unread => unread n
  | c_actor_content_type => actor_content_type n
  | c_actor_object_id => actor_object_id n
  | c_verb => verb n
  | c_description => description n
  | c_target_content_type => target_content_type n
  | c_target_object_id => target_object_id n
  | c_action_object_content_type => action_object_content_type n
  | c_action_object_object_id => action_object_object_id n
  | c_timestamp => timestamp n
  | c_public => public n
  | c_deleted => deleted n
  | c_emailed => emailed n
  | c_data => data n
  end.

Definition set_column (c : Column) (v : Value) (n : Notification) : Notification :=
  match c with
  | c_id => set_id v n
  | c_level => set_level v n
  | c_recipient => set_recipient v n
  | c_unread => set_unread v n
  | c_actor_content_type => set_actor_content_type v n
  | c_actor_object_id => set_actor_object_id v n
  | c_verb => set_verb v n
  | c_description => set_description v n
  | c_target_content_type => set_target_content_type v n
  | c_target_object_id => set_target_object_id v n
  | c_action_object_content_type => set_action_object_content_type v n
  | c_action_object_object_id => set_action_object_object_id v n
  | c_timestamp => set_timestamp v n
  | c_public => set_public v n
  | c_deleted => set_deleted v n
  | c_emailed => set_emailed v n
  | c_data => set_data v n
  end.

(** Whether a keyword of [filter] or [update] resolves to a field. *)
Definition is_field (name : string) : bool :=
  match column_of_name name with
  | Some _ => true
  | None => false
  end.

(** [hasattr(instance, name)], [getattr] and [setattr] on the data
    attributes of an instance. *)
Definition hasattr (name : string) : bool :=
  match column_of_name name with
  | Some _ => true
  | None => false
  end.

Definition getattr (name : string) (n : Notification) : option Value :=
  match column_of_name name with
  | Some c => Some (get_column c n)
  | None => None
  end.

Definition setattr (name : string) (v : Value) (n : Notification) : Notification :=
  match column_of_name name with
  | Some c => set_column c v n
  | None => n
  end.

(** ** Settings ([notifications_settings.get_config()] and Django's) *)

Record Settings := {
  PAGINATE_BY : Z;
  USE_JSONFIELD : bool;
  SOFT_DELETE : bool;
  ALLOWED_HOSTS : list string
}.

(** ** The relational store *)

(** The notifications table in insertion order, the next primary key the
    store hands out, and the number of write statements it has executed
    (INSERT, UPDATE, DELETE), which makes a skipped write observable. *)
Record DB := {
  rows : list Notification;
  next_id : Z;
  writes : nat
}.

(** Code that reads or writes the store and may raise.  An exception
    leaves what was written before it in place: there is no enclosing
    transaction. *)
Definition M (A : Type) : Type := DB -> result A * DB.

Definition ret {A} (a : A) : M A := fun db => (Ok a, db).

Definition raise {A} (e : Exc) : M A := fun db => (Raise e, db).

Definition bind {A B} (m : M A) (k : A -> M B) : M B :=
  fun db =>
    match m db with
    | (Ok a, db') => k a db'
    | (Raise e, db') => (Raise e, db')
    end.

(** A computation that does not touch the store. *)
Definition lift {A} (r : result A) : M A := fun db => (r, db).

Declare Scope py_scope.
Delimit Scope py_scope with py.
Notation "x <- m ;; k" := (bind m (fun x => k))
  (at level 61, m at next level, right associativity) : py_scope.
Notation "' p <- m ;; k" := (bind m (fun x => let 'p := x in k))
  (at level 61, p pattern, m at next level, right associativity) : py_scope.
Notation "m ;;; k" := (bind m (fun _ => k))
  (at level 61, right associativity) : py_scope.
Open Scope py_scope.

Definition has_id (i : Z) (r : Notification) : bool :=
  value_eqb (id r) (VInt i).

(** [Model.save()].  Without a primary key the row is inserted under the
    next key of the store.  With one, the row holding that key is
    overwritten with the instance's attributes; when there is none the
    instance is inserted under its own key. *)
Definition save (n : Notification) : M Notification :=
  fun db =>
    match id n with
    | VInt i =>
        if existsb (has_id i) (rows db)
        then (Ok n, {| rows := map (fun r => if has_id i r then n else r) (rows db);
                       next_id := next_id db;
                       writes := S (writes db) |})
        else (Ok n, {| rows := rows db ++ [n];
                       next_id := Z.max (next_id db) (i + 1);
                       writes := S (writes db) |})
    | _ =>
        let n' := set_id (VInt (next_id db)) n in
        (Ok n', {| rows := rows db ++ [n'];
                   next_id := next_id db + 1;
                   writes := S (writes db) |})
    end.

(** [Model.delete()]: removes the row with the instance's primary key;
    an instance without one cannot be deleted. *)
Definition delete_instance (n : Notification) : M unit :=
  fun db =>
    match id n with
    | VInt i =>
        (Ok tt, {| rows := filter (fun r => negb (has_id i r)) (rows db);
                   next_id := next_id db;
                   writes := S (writes db) |})
    | _ => (Raise (ValueError "id"), db)
    end.

(** ** Querysets *)

(** A queryset is the condition it has accumulated; it is evaluated
    against the table only when its rows are asked for or updated. *)
Definition QuerySet := Notification -> bool.

(** [Notification.objects]: the unrestricted queryset. *)
Definition objects : QuerySet := fun _ => true.

Definition qs_rows (qs : QuerySet) (db : DB) : list Notification :=
  filter qs (rows db).

(** One keyword of [filter(name=value)] on one row. *)
Definition lookup_matches (name : string) (v : Value) (r : Notification) : bool :=
  match getattr name r with
  | Some w => value_eqb w v
  | None => false
  end.

(** [QuerySet.filter( **lookups )]: every keyword must resolve to a field,
    otherwise the call raises FieldError (cannot resolve keyword into
    field) while the query is built. *)
Fixpoint qs_filter (lookups : list (string * Value)) (qs : QuerySet)
  : result QuerySet :=
  match lookups with
  | [] => Ok qs
  | (name, v) :: rest =>
      if is_field name
      then qs_filter rest (fun r => qs r && lookup_matches name v r)
      else Raise (FieldError name)
  end.

(** [QuerySet.update( **assignments )]: one UPDATE statement over the
    rows the queryset matches; returns the number of rows matched. *)
Definition qs_update (assignments : list (string * Value)) (qs : QuerySet)
  : M Z :=
  fun db =>
    match find (fun kv => negb (is_field (fst kv))) assignments with
    | Some (name, _) => (Raise (FieldDoesNotExist name), db)
    | None =>
        let assign r := fold_left (fun r kv => setattr (fst kv) (snd kv) r) assignments r in
        (Ok (Z.of_nat (List.length (filter qs (rows db)))),
         {| rows := map (fun r => if qs r then assign r else r) (rows db);
            next_id := next_id db;
            writes := S (writes db) |})
    end.

(** [QuerySet.count()]. *)
Definition qs_count (qs : QuerySet) : M Z :=
  fun db => (Ok (Z.of_nat (List.length (qs_rows qs db))), db).

(** [QuerySet.delete()]: removes the matched rows, returns how many. *)
Definition qs_delete (qs : QuerySet) : M Z :=
  fun db =>
    (Ok (Z.of_nat (List.length (filter qs (rows db)))),
     {| rows := filter (fun r => negb (qs r)) (rows db);
        next_id := next_id db;
        writes := S (writes db) |}).

(** [QuerySet.get()] behind [get_object_or_404(Notification, **lookups)]. *)
Definition get_object_or_404 (lookups : list (string * Value)) : M Notification :=
  fun db =>
    match qs_filter lookups objects with
    | Raise e => (Raise e, db)
    | Ok qs =>
        match qs_rows qs db with
        | [] => (Raise Http404, db)
        | [n] => (Ok n, db)
        | _ => (Raise MultipleObjectsReturned, db)
        end
    end.

(** ** notifications/base/models.py: soft-delete switch *)

Definition is_soft_delete (cfg : Settings) : bool := SOFT_DELETE cfg.

Definition assert_soft_delete (cfg : Settings) : result unit :=
  if negb (is_soft_delete cfg)
  then Raise (ImproperlyConfigured "REVERTME")
  else Ok tt.

(** [if recipient: qset = qset.filter(recipient=recipient.id)], the
    argument being a user or [None]. *)
Definition filter_recipient (recipient : option ModelObj) (qset : QuerySet)
  : result QuerySet :=
  match recipient with
  | Some u => qs_filter [("recipient", VInt (pk u))] qset
  | None => Ok qset
  end.

(** ** notifications/base/models.py: NotificationQuerySet *)

Module NotificationQuerySet.

Definition unsent (self : QuerySet) : result QuerySet :=
  qs_filter [("emailed", VBool false)] self.

Definition sent (self : QuerySet) : result QuerySet :=
  qs_filter [("emailed", VBool true)] self.

Definition unread (cfg : Settings) (include_deleted : bool) (self : QuerySet)
  : result QuerySet :=
  if is_soft_delete cfg && negb include_deleted
  then qs_filter [("unread", VBool true); ("deleted", VBool false)] self
  else qs_filter [("unread", VBool true)] self.

Definition read (cfg : Settings) (include_deleted : bool) (self : QuerySet)
  : result QuerySet :=
  if is_soft_delete cfg && negb include_deleted
  then qs_filter [("unread", VBool false); ("deleted", VBool false)] self
  else qs_filter [("unread", VBool false)] self.

Definition mark_all_as_read (cfg : Settings) (recipient : option ModelObj)
  (self : QuerySet) : M Z :=
  qset <- lift (unread cfg true self) ;;
  qset <- lift (filter_recipient recipient qset) ;;
  qs_update [("unread", VBool false)] qset.

Definition mark_all_as_unread (cfg : Settings) (recipient : option ModelObj)
  (self : QuerySet) : M Z :=
  qset <- lift (read cfg true self) ;;
  qset <- lift (filter_recipient recipient qset) ;;
  qs_update [("unread", VBool true)] qset.

Definition deleted (cfg : Settings) (self : QuerySet) : result QuerySet :=
  rbind (assert_soft_delete cfg) (fun _ =>
  qs_filter [("deleted", VBool true)] self).

Definition active (cfg : Settings) (self : QuerySet) : result QuerySet :=
  rbind (assert_soft_delete cfg) (fun _ =>
  qs_filter [("deleted", VBool false)] self).

Definition mark_all_as_deleted (cfg : Settings) (recipient : option ModelObj)
  (self : QuerySet) : M Z :=
  lift (assert_soft_delete cfg) ;;;
  qset <- lift (active cfg self) ;;
  qset <- lift (filter_recipient recipient qset) ;;
  qs_update [("deleted", VBool true)] qset.

Definition mark_all_as_active (cfg : Settings) (recipient : option ModelObj)
  (self : QuerySet) : M Z :=
  lift (assert_soft_delete cfg) ;;;
  qset <- lift (deleted cfg self) ;;
  qset <- lift (filter_recipient recipient qset) ;;
  qs_update [("deleted", VBool false)] qset.

Definition mark_as_unsent (recipient : option ModelObj) (self : QuerySet) : M Z :=
  qset <- lift (sent self) ;;
  qset <- lift (filter_recipient recipient qset) ;;
  qs_update [("emailed", VBool false)] qset.

Definition mark_as_sent (recipient : option ModelObj) (self : QuerySet) : M Z :=
  qset <- lift (unsent self) ;;
  qset <- lift (filter_recipient recipient qset) ;;
  qs_update [("emailed", VBool true)] qset.

End NotificationQuerySet.

(** ** notifications/base/models.py: AbstractNotification methods *)

Module AbstractNotification.

(** The [slug] property, [id2slug(self.id)].  The sum is defined when the
    key is a number; [None] stands for the failure of the addition on an
    instance that has no key yet. *)
Definition slug (self : Notification) : option Z :=
  match id self with
  | VInt i => Some (id2slug i)
  | _ => None
  end.

Definition mark_as_read (self : Notification) : M Notification :=
  if truthy (unread self)
  then save (set_unread (VBool false) self)
  else ret self.

Definition mark_as_unread (self : Notification) : M Notification :=
  if negb (truthy (unread self))
  then save (set_unread (VBool true) self)
  else ret self.

End AbstractNotification.

(** ** notifications/base/models.py: notify_handler *)

(** [obj.pk] and [r.id]: only model instances have them. *)
Definition attr_pk (obj : Value) : result Value :=
  match obj with
  | VObj o => Ok (VInt (pk o))
  | VGroup g _ => Ok (VInt (pk g))
  | _ => Raise (AttributeError "pk")
  end.

Definition attr_id (obj : Value) : result Value :=
  match obj with
  | VObj o => Ok (VInt (pk o))
  | VGroup g _ => Ok (VInt (pk g))
  | _ => Raise (AttributeError "id")
  end.

(** [ContentType.objects.get_for_model(obj, for_concrete_model=flag)]:
    the content type of the concrete model when the flag is true, of the
    instance's own (proxy) model otherwise. *)
Definition get_for_model (obj : Value) (for_concrete_model : bool) : result Value :=
  match obj with
  | VObj o =>
      Ok (VInt (if for_concrete_model then concrete_content_type o
                else content_type o))
  | VGroup g _ =>
      Ok (VInt (if for_concrete_model then concrete_content_type g
                else content_type g))
  | _ => Raise (AttributeError "_meta")
  end.

(** The [isinstance] cascade on the recipient: a group stands for its
    members, a list or queryset for its items, anything else for itself. *)
Definition recipients_of (recipient : Value) : list Value :=
  match recipient with
  | VGroup _ user_set => map VObj user_set
  | VList items => items
  | _ => [recipient]
  end.

(** [[r.id for r in recipients]]. *)
Fixpoint recipient_ids (recipients : list Value) : result (list Value) :=
  match recipients with
  | [] => Ok []
  | r :: rest =>
      rbind (attr_id r) (fun i =>
      rbind (recipient_ids rest) (fun ids => Ok (i :: ids)))
  end.

(** [Notification(recipient=..., actor_content_type=..., ...)]: the
    keywords the handler passes, every other column at its default. *)
Definition new_Notification (recipient actor_content_type actor_object_id : Value)
    (verb : string) (public : bool) (description timestamp level : Value)
  : Notification :=
  {| id := VNone;
     level := level;
     recipient := recipient;
     unread := VBool true;
     actor_content_type := actor_content_type;
     actor_object_id := actor_object_id;
     verb := VStr verb;
     description := description;
     target_content_type := VNone;
     target_object_id := VNone;
     action_object_content_type := VNone;
     action_object_object_id := VNone;
     timestamp := timestamp;
     public := VBool public;
     deleted := VBool false;
     emailed := VBool false;
     data := VNone |}.

(** The loop over [optional_objs] inside the per-recipient loop.  The
    [<opt>_for_concrete_model] flag is popped from the handler's own
    [kwargs], so the dictionary it leaves behind is what the next
    recipient sees. *)
Fixpoint set_optional_objs (optional_objs : list (Value * string))
    (newnotify : Notification) (kwargs : Kwargs)
  : result (Notification * Kwargs) :=
  match optional_objs with
  | [] => Ok (newnotify, kwargs)
  | (VNone, _) :: rest => set_optional_objs rest newnotify kwargs
  | (obj, opt) :: rest =>
      let '(for_concrete_model, kwargs) :=
        kw_pop_default (opt ++ "_for_concrete_model") (VBool true) kwargs in
      rbind (attr_pk obj) (fun obj_pk =>
      let newnotify := setattr (opt ++ "_object_id") obj_pk newnotify in
      rbind (get_for_model obj (truthy for_concrete_model)) (fun ct =>
      let newnotify := setattr (opt ++ "_content_type") ct newnotify in
      set_optional_objs rest newnotify kwargs))
  end.

(** The [for key in list(kwargs.keys())] loop: a keyword that names an
    attribute is moved from the copy onto the instance. *)
Fixpoint set_model_columns (keys : list string) (newnotify : Notification)
    (kwargs_copy : Kwargs) : result (Notification * Kwargs) :=
  match keys with
  | [] => Ok (newnotify, kwargs_copy)
  | key :: rest =>
      if hasattr key
      then rbind (kw_pop key kwargs_copy) (fun '(v, kwargs_copy) =>
           set_model_columns rest (setattr key v newnotify) kwargs_copy)
      else set_model_columns rest newnotify kwargs_copy
  end.

(** The body of [if kwargs and EXTRA_DATA:]. *)
Definition set_extra_data (kwargs : Kwargs) (newnotify : Notification)
  : result Notification :=
  let kwargs_copy := kwargs in
  rbind (set_model_columns (kw_keys kwargs) newnotify kwargs_copy)
    (fun '(newnotify, kwargs_copy) =>
  Ok (set_data (VDict kwargs_copy) newnotify)).

(** What the handler has pulled out of [kwargs] before the loop. *)
Record Options := {
  opt_actor : Value;
  opt_optional_objs : list (Value * string);
  opt_public : bool;
  opt_description : Value;
  opt_timestamp : Value;
  opt_level : Value;
  opt_actor_for_concrete_model : bool
}.

(** The body of the loop up to [save]: the instance built for one
    recipient, and [kwargs] as the body leaves it. *)
Definition build_notification (cfg : Settings) (verb : string) (o : Options)
    (recipient : Value) (kwargs : Kwargs) : result (Notification * Kwargs) :=
  rbind (get_for_model (opt_actor o) (opt_actor_for_concrete_model o))
    (fun actor_ct =>
  rbind (attr_pk (opt_actor o)) (fun actor_pk =>
  let newnotify :=
    new_Notification recipient actor_ct actor_pk verb (opt_public o)
      (opt_description o) (opt_timestamp o) (opt_level o) in
  rbind (set_optional_objs (opt_optional_objs o) newnotify kwargs)
    (fun '(newnotify, kwargs) =>
  rbind (if truthy (VDict kwargs) && USE_JSONFIELD cfg
         then set_extra_data kwargs newnotify
         else Ok newnotify) (fun newnotify =>
  Ok (newnotify, kwargs))))).

(** [for recipient in recipients:].  [kwargs] is the one dictionary of
    the call, carried from one recipient to the next. *)
Fixpoint notify_loop (cfg : Settings) (verb : string) (o : Options)
    (recipients : list Value) (kwargs : Kwargs)
    (new_notifications : list Notification) : M (list Notification) :=
  match recipients with
  | [] => ret new_notifications
  | recipient :: rest =>
      ' (newnotify, kwargs) <-
        lift (build_notification cfg verb o recipient kwargs) ;;
      newnotify <- save newnotify ;;
      notify_loop cfg verb o rest kwargs (new_notifications ++ [newnotify])
  end.

(** [notify_handler(verb, **kwargs)].  [now] is the reading of
    [timezone.now()], taken once, when the timestamp default is built. *)
Definition notify_handler (cfg : Settings) (now : Z) (verb : string)
    (kwargs : Kwargs) : M (list Notification) :=
  let '(_, kwargs) := kw_pop_default "signal" VNone kwargs in
  ' (recipient, kwargs) <- lift (kw_pop "recipient" kwargs) ;;
  ' (actor, kwargs) <- lift (kw_pop "sender" kwargs) ;;
  let '(target, kwargs) := kw_pop_default "target" VNone kwargs in
  let '(action_object, kwargs) := kw_pop_default "action_object" VNone kwargs in
  let optional_objs := [(target, "target"); (action_object, "action_object")] in
  let '(public, kwargs) := kw_pop_default "public" (VBool true) kwargs in
  let '(description, kwargs) := kw_pop_default "description" VNone kwargs in
  let '(timestamp, kwargs) := kw_pop_default "timestamp" (VInt now) kwargs in
  let '(level, kwargs) := kw_pop_default "level" (VStr "info") kwargs in
  let '(actor_for_concrete_model, kwargs) :=
    kw_pop_default "actor_for_concrete_model" (VBool true) kwargs in
  let recipients := recipients_of recipient in
  recipients <- lift (recipient_ids recipients) ;;
  notify_loop cfg verb
    {| opt_actor := actor;
       opt_optional_objs := optional_objs;
       opt_public := truthy public;
       opt_description := description;
       opt_timestamp := timestamp;
       opt_level := level;
       opt_actor_for_concrete_model := truthy actor_for_concrete_model |}
    recipients kwargs [].

(** ** Attribute lookup on a queryset *)

Inductive MethodResult :=
| RQuerySet (qs : QuerySet)
| RInt (z : Z).

(** [queryset.<name>()]: the attribute is looked up on the queryset and
    called without arguments.  The names that resolve are the methods
    NotificationQuerySet defines and the methods of Django's QuerySet
    used in this development; any other name raises AttributeError. *)
Definition call_method (cfg : Settings) (name : string) (self : QuerySet)
  : M MethodResult :=
  let scope (r : result QuerySet) : M MethodResult :=
    qs <- lift r ;; ret (RQuerySet qs) in
  let mutator (m : M Z) : M MethodResult :=
    z <- m ;; ret (RInt z) in
  if String.eqb name "unsent" then scope (NotificationQuerySet.unsent self)
  else if String.eqb name "sent" then scope (NotificationQuerySet.sent self)
  else if String.eqb name "unread" then
    scope (NotificationQuerySet.unread cfg false self)
  else if String.eqb name "read" then
    scope (NotificationQuerySet.read cfg false self)
  else if String.eqb name "mark_all_as_read" then
    mutator (NotificationQuerySet.mark_all_as_read cfg None self)
  else if String.eqb name "mark_all_as_unread" then
    mutator (NotificationQuerySet.mark_all_as_unread cfg None self)
  else if String.eqb name "deleted" then
    scope (NotificationQuerySet.deleted cfg self)
  else if String.eqb name "active" then
    scope (NotificationQuerySet.active cfg self)
  else if String.eqb name "mark_all_as_deleted" then
    mutator (NotificationQuerySet.mark_all_as_deleted cfg None self)
  else if String.eqb name "mark_all_as_active" then
    mutator (NotificationQuerySet.mark_all_as_active cfg None self)
  else if String.eqb name "mark_as_unsent" then
    mutator (NotificationQuerySet.mark_as_unsent None self)
  else if String.eqb name "mark_as_sent" then
    mutator (NotificationQuerySet.mark_as_sent None self)
  else if String.eqb name "all" then scope (Ok self)
  else if String.eqb name "count" then mutator (qs_count self)
  else if String.eqb name "delete" then mutator (qs_delete self)
  else raise (AttributeError name).

(** ** notifications/views.py *)

(** [request.user] is [None] for the anonymous user; [GET] holds the
    query string parameters. *)
Record HttpRequest := {
  user : option ModelObj;
  GET : list (string * string)
}.

Inductive HttpResponse :=
| Redirect (url : string)             (* redirect to a URL *)
| RedirectRoute (route : string)      (* redirect to a named route *)
| RedirectLogin                       (* login_required bounced the request *)
| JsonResponse (data : list (string * Value)).

Definition is_authenticated (request : HttpRequest) : bool :=
  match user request with
  | Some _ => true
  | None => false
  end.

(** [request.user.id]: the anonymous user's id is [None]. *)
Definition user_id (request : HttpRequest) : Value :=
  match user request with
  | Some u => VInt (pk u)
  | None => VNone
  end.

(** [request.GET.get(key)]. *)
Fixpoint GET_get (key : string) (params : list (string * string)) : option string :=
  match params with
  | [] => None
  | (k, v) :: rest => if String.eqb k key then Some v else GET_get key rest
  end.

(** The [@login_required] decorator. *)
Definition login_required (view : HttpRequest -> M HttpResponse)
  : HttpRequest -> M HttpResponse :=
  fun request =>
    if is_authenticated request then view request else ret RedirectLogin.

Module Views.

Section WithDjango.

(** Settings of the running process. *)
Variable cfg : Settings.

(** Collaborators from the host framework. *)
Variable url_has_allowed_host_and_scheme : string -> list string -> bool.
Variable iri_to_uri : string -> string.

(** [notifications.helpers.get_notification_list(request, method_name)];
    the helpers module is not among the sources, so the function is taken
    as given.  [None] stands for a call that leaves [method_name] out. *)
Variable get_notification_list : HttpRequest -> option string -> M Value.

(** The tail every action view shares: follow [next] when it is present,
    non-empty and allowed, otherwise go to the default route. *)
Definition redirect_next (request : HttpRequest) (default : string) : HttpResponse :=
  match GET_get "next" (GET request) with
  | Some _next =>
      if negb (String.eqb _next EmptyString)
         && url_has_allowed_host_and_scheme _next (ALLOWED_HOSTS cfg)
      then Redirect (iri_to_uri _next)
      else RedirectRoute default
  | None => RedirectRoute default
  end.

(** [AllNotificationsList.get_queryset]. *)
Definition AllNotificationsList_get_queryset (request : HttpRequest)
  : result QuerySet :=
  if SOFT_DELETE cfg
  then qs_filter [("recipient", user_id request); ("active", VBool true)] objects
  else qs_filter [("recipient", user_id request)] objects.

(** [UnreadNotificationsList.get_queryset]. *)
Definition UnreadNotificationsList_get_queryset (request : HttpRequest)
  : result QuerySet :=
  qs_filter [("recipient", user_id request); ("unread", VBool true)] objects.

Definition mark_all_as_read : HttpRequest -> M HttpResponse :=
  login_required (fun request =>
    notifications <- lift (qs_filter [("recipient", user_id request)] objects) ;;
    NotificationQuerySet.mark_all_as_read cfg None notifications ;;;
    ret (redirect_next request "notifications:unread")).

Definition delete_all : HttpRequest -> M HttpResponse :=
  login_required (fun request =>
    notifications <- lift (qs_filter [("recipient", user_id request)] objects) ;;
    call_method cfg "delete_all" notifications ;;;
    ret (redirect_next request "notifications:unread")).

Definition delete (slug : option Z) : HttpRequest -> M HttpResponse :=
  login_required (fun request =>
    match slug with
    | None => raise Http404
    | Some slug =>
        let notification_id := slug2id slug in
        notification <-
          get_object_or_404 [("recipient", user_id request);
                             ("id", VInt notification_id)] ;;
        (if SOFT_DELETE cfg
         then save (set_deleted (VBool true) notification) ;;; ret tt
         else delete_instance notification) ;;;
        ret (redirect_next request "notifications:all")
    end).

Definition mark_as_unread (slug : option Z) : HttpRequest -> M HttpResponse :=
  login_required (fun request =>
    match slug with
    | None => raise Http404
    | Some slug =>
        let notification_id := slug2id slug in
        notification <-
          get_object_or_404 [("recipient", user_id request);
                             ("id", VInt notification_id)] ;;
        AbstractNotification.mark_as_unread notification ;;;
        ret (redirect_next request "notifications:unread")
    end).

Definition live_unread_notification_count (request : HttpRequest)
  : M HttpResponse :=
  let user_is_authenticated := is_authenticated request in
  if negb user_is_authenticated
  then ret (JsonResponse [("unread_count", VInt 0)])
  else
    qs <- lift (qs_filter [("recipient", user_id request);
                           ("unread", VBool true)] objects) ;;
    n <- qs_count qs ;;
    ret (JsonResponse [("unread_count", VInt n)]).

Definition live_unread_notification_list (request : HttpRequest)
  : M HttpResponse :=
  let user_is_authenticated := is_authenticated request in
  if negb user_is_authenticated
  then ret (JsonResponse [("unread_count", VInt 0); ("unread_list", VList [])])
  else
    unread_list <- get_notification_list request (Some "unread") ;;
    qs <- lift (qs_filter [("recipient", user_id request);
                           ("unread", VBool true)] objects) ;;
    n <- qs_count qs ;;
    ret (JsonResponse [("unread_count", VInt n); ("unread_list", unread_list)]).

Definition live_all_notification_list (request : HttpRequest)
  : M HttpResponse :=
  let user_is_authenticated := is_authenticated request in
  if negb user_is_authenticated
  then ret (JsonResponse [("all_count", VInt 0); ("all_list", VList [])])
  else
    all_list <- get_notification_list request None ;;
    qs <- lift (qs_filter [("recipient", user_id request)] objects) ;;
    n <- qs_count qs ;;
    ret (JsonResponse [("all_count", VInt n); ("all_list", all_list)]).

Definition live_all_notification_count (request : HttpRequest)
  : M HttpResponse :=
  let user_is_authenticated := is_authenticated request in
  if negb user_is_authenticated
  then ret (JsonResponse [("all_count", VInt 0)])
  else
    qs <- lift (qs_filter [("recipient", user_id request)] objects) ;;
    n <- qs_count qs ;;
    ret (JsonResponse [("all_count", VInt n)]).

End WithDjango.

End Views.

(** ** notifications/admin.py *)

Module Admin.

(** The admin action [mark_unread(_modeladmin, _request, queryset)]: one
    unconditional update of the selected rows; it returns [None]. *)
Definition mark_unread (_request : HttpRequest) (queryset : QuerySet) : M Value :=
  qs_update [("unread", VBool true)] queryset ;;; ret VNone.

End Admin.

(** ** Vocabulary for statements about the handler *)

Definition is_model_instance (v : Value) : bool :=
  match v with
  | VObj _ | VGroup _ _ => true
  | _ => false
  end.

(** An optional object as a caller passes it: left out, [None], or a
    model instance. *)
Definition optional_model (v : option Value) : bool :=
  match v with
  | None | Some VNone => true
  | Some v => is_model_instance v
  end.

(** A row with its primary key and its recipient blanked: two rows with
    the same [event_of] differ in nothing but those two columns. *)
Definition event_of (n : Notification) : Notification :=
  set_recipient VNone (set_id VNone n).

(** Two computations on rows of one event that end alike: both raise the
    same exception, or both return rows of one event and the same
    leftover keywords. *)
Definition alike (x y : result (Notification * Kwargs)) : Prop :=
  match x, y with
  | Ok (a, ka), Ok (b, kb) => event_of a = event_of b /\ ka = kb
  | Raise e1, Raise e2 => e1 = e2
  | _, _ => False
  end.

(** The keywords the handler takes out of [kwargs] for itself. *)
Definition option_names : list string :=
  ["signal"; "recipient"; "sender"; "target"; "action_object"; "public";
   "description"; "timestamp"; "level"; "actor_for_concrete_model";
   "target_for_concrete_model"; "action_object_for_concrete_model"].

(** A flag column as the store holds it. *)
Definition is_bool (v : Value) : bool :=
  match v with
  | VBool _ => true
  | _ => false
  end.

(** The value a keyword has in [kwargs], or a default. *)
Definition kw_default (key : string) (default : Value) (kw : Kwargs) : Value :=
  match kw_get key kw with
  | Some v => v
  | None => default
  end.

(** What is left of [kwargs] when the loop of the handler starts: the
    keywords it has not popped. *)
Definition leftover (kwargs : Kwargs) : Kwargs :=
  fold_left (fun kw key => kw_remove key kw)
    ["signal"; "recipient"; "sender"; "target"; "action_object"; "public";
     "description"; "timestamp"; "level"; "actor_for_concrete_model"]
    kwargs.

(** The options of a call as the handler reads them, defaults applied,
    for a call that names a sender. *)
Definition options_of (now : Z) (kwargs : Kwargs) : Options :=
  {| opt_actor := kw_default "sender" VNone kwargs;
     opt_optional_objs :=
       [(kw_default "target" VNone kwargs, "target");
        (kw_default "action_object" VNone kwargs, "action_object")];
     opt_public := truthy (kw_default "public" (VBool true) kwargs);
     opt_description := kw_default "description" VNone kwargs;
     opt_timestamp := kw_default "timestamp" (VInt now) kwargs;
     opt_level := kw_default "level" (VStr "info") kwargs;
     opt_actor_for_concrete_model :=
       truthy (kw_default "actor_for_concrete_model" (VBool true) kwargs) |}.


(** Consecutive primary keys starting at [i]. *)
Fixpoint keys_from (i : Z) (count : nat) : list Value :=
  match count with
  | O => []
  | S k => VInt i :: keys_from (i + 1) k
  end.

(** ** Vocabulary for statements about bulk updates *)

(** The optional [recipient] argument of a mutator as a condition. *)
Definition recipient_is (recipient_arg : option ModelObj) (r : Notification) : bool :=
  match recipient_arg with
  | Some u => value_eqb (recipient r) (VInt (pk u))
  | None => true
  end.

(** What a mutator that moves the flag column [c] away from [b] does to
    the store when run on the rows selected by [sel]:
    - it returns, and no row changes in any column but [c];
    - a selected row whose flag is [b] gets the opposite flag;
    - every other row stays as it is;
    - the number returned counts the selected rows whose flag was [b];
    - no key is handed out;
    - run again right away, it returns 0 and changes no row. *)
Definition bulk_flip (c : Column) (b : bool) (sel : QuerySet) (run : M Z)
    (db : DB) : Prop :=
  exists count db',
    run db = (Ok count, db')
    /\ Forall2 (fun r r' => set_column c VNone r' = set_column c VNone r)
         (rows db) (rows db')
    /\ (forall i r,
          nth_error (rows db) i = Some r ->
          sel r = true -> get_column c r = VBool b ->
          nth_error (rows db') i = Some (set_column c (VBool (negb b)) r))
    /\ (forall i r,
          nth_error (rows db) i = Some r ->
          sel r = false \/ get_column c r <> VBool b ->
          nth_error (rows db') i = Some r)
    /\ count =
       Z.of_nat (List.length
         (filter (fun r => sel r && value_eqb (get_column c r) (VBool b))
            (rows db)))
    /\ next_id db' = next_id db
    /\ exists db'', run db' = (Ok 0, db'') /\ rows db'' = rows db'.

(** ** Concrete data used by the examples below *)

Definition settings_soft : Settings :=
  {| PAGINATE_BY := 20; USE_JSONFIELD := false; SOFT_DELETE := true;
     ALLOWED_HOSTS := [] |}.

Definition settings_hard : Settings :=
  {| PAGINATE_BY := 20; USE_JSONFIELD := false; SOFT_DELETE := false;
     ALLOWED_HOSTS := [] |}.

(** Three users of the concrete user model (content type 4). *)
Definition alice : ModelObj :=
  {| pk := 1; content_type := 4; concrete_content_type := 4 |}.
Definition bob : ModelObj :=
  {| pk := 2; content_type := 4; concrete_content_type := 4 |}.
Definition carol : ModelObj :=
  {| pk := 3; content_type := 4; concrete_content_type := 4 |}.

(** An instance of a proxy model (content type 21) whose concrete model
    has content type 20. *)
Definition proxy_post : ModelObj :=
  {| pk := 7; content_type := 21; concrete_content_type := 20 |}.

Definition empty_db : DB := {| rows := []; next_id := 1; writes := 0 |}.

(** A stored notification for [recipient_pk] with the given flags. *)
Definition stored (i recipient_pk : Z) (is_unread is_deleted : bool) : Notification :=
  set_deleted (VBool is_deleted)
    (set_unread (VBool is_unread)
       (set_id (VInt i)
          (new_Notification (VInt recipient_pk) (VInt 4) (VInt 1) "commented"
             true VNone (VInt 1000) (VStr "info")))).

Definition sample_db : DB :=
  {| rows := [stored 1 2 true false; stored 2 2 false false;
              stored 3 2 true true; stored 4 3 true false];
     next_id := 5;
     writes := 4 |}.

Definition request_of (u : option ModelObj) : HttpRequest :=
  {| user := u; GET := [] |}.

(** * Theorems *)

(** ** notifications/utils.py *)

(** C3: for every non-negative id, slug2id (id2slug id) = id; the slug is
    the id plus the fixed offset 110909; and for every slug that id2slug
    produces, id2slug (slug2id slug) = slug. *)
Theorem slug_roundtrip (i : Z) (Hi : 0 <= i) :
  slug2id (id2slug i) = i
  /\ id2slug i = i + 110909
  /\ (forall slug, slug = id2slug i -> id2slug (slug2id slug) = slug).
Proof.
  unfold slug2id, id2slug.
  repeat split; intros; lia.
Qed.

Lemma slug_roundtrip_witness :
  slug2id (id2slug 7) = 7
  /\ id2slug 7 = 7 + 110909
  /\ (forall slug, slug = id2slug 7 -> id2slug (slug2id slug) = slug).
Proof.
  apply (slug_roundtrip 7). lia.
Defined.

(** ** Values, rows and bulk updates *)

Lemma value_eqb_bool v b : value_eqb v (VBool b) = true <-> v = VBool b.
Proof.
  destruct v; simpl; split; intros H; try discriminate; try congruence.
  - apply Bool.eqb_prop in H. now subst.
  - inversion H; subst. apply Bool.eqb_reflx.
Qed.

Lemma value_eqb_int v i : value_eqb v (VInt i) = true <-> v = VInt i.
Proof.
  destruct v; simpl; split; intros H; try discriminate; try congruence.
  - apply Z.eqb_eq in H. now subst.
  - inversion H; subst. apply Z.eqb_refl.
Qed.

Lemma has_id_true i r : has_id i r = true <-> id r = VInt i.
Proof. apply value_eqb_int. Qed.

Lemma In_qs_rows qs db r : In r (qs_rows qs db) <-> In r (rows db) /\ qs r = true.
Proof. unfold qs_rows. apply filter_In. Qed.

(** A bulk update of the single column [unread]. *)
Lemma qs_update_unread v (q : QuerySet) db :
  qs_update [("unread", v)] q db =
  (Ok (Z.of_nat (List.length (filter q (rows db)))),
   {| rows := map (fun r => if q r then set_unread v r else r) (rows db);
      next_id := next_id db;
      writes := S (writes db) |}).
Proof. reflexivity. Qed.

(** ** NotificationQuerySet: the scopes *)

(** The scopes written out as conditions on a row. *)
Lemma unread_scope cfg include_deleted (self : QuerySet) :
  NotificationQuerySet.unread cfg include_deleted self =
  Ok (if SOFT_DELETE cfg && negb include_deleted
      then fun r => self r && value_eqb (unread r) (VBool true)
                    && value_eqb (deleted r) (VBool false)
      else fun r => self r && value_eqb (unread r) (VBool true)).
Proof.
  unfold NotificationQuerySet.unread, is_soft_delete.
  destruct (SOFT_DELETE cfg && negb include_deleted); reflexivity.
Qed.

Lemma read_scope cfg include_deleted (self : QuerySet) :
  NotificationQuerySet.read cfg include_deleted self =
  Ok (if SOFT_DELETE cfg && negb include_deleted
      then fun r => self r && value_eqb (unread r) (VBool false)
                    && value_eqb (deleted r) (VBool false)
      else fun r => self r && value_eqb (unread r) (VBool false)).
Proof.
  unfold NotificationQuerySet.read, is_soft_delete.
  destruct (SOFT_DELETE cfg && negb include_deleted); reflexivity.
Qed.

Lemma scope_rows (self : QuerySet) (gate b : bool) db r :
  In r (qs_rows
          (if gate
           then fun r => self r && value_eqb (unread r) (VBool b)
                         && value_eqb (deleted r) (VBool false)
           else fun r => self r && value_eqb (unread r) (VBool b)) db)
  <-> In r (qs_rows self db)
      /\ unread r = VBool b
      /\ (gate = true -> deleted r = VBool false).
Proof.
  rewrite !In_qs_rows. destruct gate.
  - rewrite !andb_true_iff, !value_eqb_bool. intuition.
  - rewrite andb_true_iff, value_eqb_bool. intuition discriminate.
Qed.

(** C4: unread() keeps exactly the rows of the queryset with unread = true
    and read() exactly those with unread = false; a row with deleted = true
    is dropped by either scope if and only if soft-delete mode is enabled
    and include_deleted is false. *)
Theorem unread_read_scopes cfg (include_deleted : bool) (self : QuerySet) :
  exists qu qr,
    NotificationQuerySet.unread cfg include_deleted self = Ok qu
    /\ NotificationQuerySet.read cfg include_deleted self = Ok qr
    /\ forall db r,
         (In r (qs_rows qu db) <->
            In r (qs_rows self db) /\ unread r = VBool true
            /\ (SOFT_DELETE cfg && negb include_deleted = true ->
                deleted r = VBool false))
         /\ (In r (qs_rows qr db) <->
            In r (qs_rows self db) /\ unread r = VBool false
            /\ (SOFT_DELETE cfg && negb include_deleted = true ->
                deleted r = VBool false))
         /\ (In r (qs_rows self db) -> deleted r = VBool true ->
             unread r = VBool true ->
             (~ In r (qs_rows qu db) <->
                SOFT_DELETE cfg = true /\ include_deleted = false))
         /\ (In r (qs_rows self db) -> deleted r = VBool true ->
             unread r = VBool false ->
             (~ In r (qs_rows qr db) <->
                SOFT_DELETE cfg = true /\ include_deleted = false)).
Proof.
  rewrite unread_scope, read_scope.
  eexists; eexists; split; [reflexivity|]; split; [reflexivity|].
  intros db r.
  assert (Hgate : SOFT_DELETE cfg && negb include_deleted = true <->
                  SOFT_DELETE cfg = true /\ include_deleted = false).
  { rewrite andb_true_iff, negb_true_iff. reflexivity. }
  split; [apply scope_rows|]. split; [apply scope_rows|].
  split; intros Hin Hd Hu; rewrite scope_rows, <- Hgate;
    (split;
     [ intros Hn;
       destruct (SOFT_DELETE cfg && negb include_deleted); [reflexivity|];
       exfalso; apply Hn; repeat split; auto; discriminate
     | intros Hg (_ & _ & Hd'); specialize (Hd' Hg); congruence ]).
Qed.

(** ** NotificationQuerySet: mark_all_as_read *)

Lemma mark_all_as_read_unfold cfg (self : QuerySet) db :
  NotificationQuerySet.mark_all_as_read cfg None self db =
  qs_update [("unread", VBool false)]
    (fun r => self r && value_eqb (unread r) (VBool true)) db.
Proof.
  unfold NotificationQuerySet.mark_all_as_read, NotificationQuerySet.unread.
  rewrite andb_false_r. reflexivity.
Qed.

(** The rows a bulk read-marking matches are the rows it flips. *)
Lemma flipped_count (q : QuerySet) (l : list Notification) :
  (forall r, q r = true -> unread r = VBool true) ->
  List.length (filter q l) =
  List.length
    (filter (fun p => value_eqb (unread (fst p)) (VBool true)
                      && value_eqb (unread (snd p)) (VBool false))
       (combine l (map (fun r => if q r then set_unread (VBool false) r else r) l))).
Proof.
  intros Hq. induction l as [|r l IH]; simpl; [reflexivity|].
  destruct (q r) eqn:Hr; simpl.
  - rewrite (Hq r Hr). simpl. now rewrite IH.
  - destruct (value_eqb (unread r) (VBool true)) eqn:E1; simpl; [|exact IH].
    apply value_eqb_bool in E1. rewrite E1. simpl. exact IH.
Qed.

(** C2: with soft-delete mode enabled, mark_all_as_read on a queryset
    sets unread to false on every row of the queryset that was unread and
    not deleted, leaves already-read rows as they were, and returns the
    number of rows whose unread flag went from true to false. *)
Theorem mark_all_as_read_flips cfg (Hsoft : SOFT_DELETE cfg = true)
    (self : QuerySet) (db : DB) :
  exists count db',
    NotificationQuerySet.mark_all_as_read cfg None self db = (Ok count, db')
    /\ List.length (rows db') = List.length (rows db)
    /\ (forall i r,
          nth_error (rows db) i = Some r ->
          self r = true -> unread r = VBool true -> deleted r = VBool false ->
          nth_error (rows db') i = Some (set_unread (VBool false) r))
    /\ (forall i r,
          nth_error (rows db) i = Some r -> unread r = VBool false ->
          nth_error (rows db') i = Some r)
    /\ count =
       Z.of_nat (List.length
         (filter (fun p => value_eqb (unread (fst p)) (VBool true)
                           && value_eqb (unread (snd p)) (VBool false))
            (combine (rows db) (rows db')))).
Proof.
  rewrite mark_all_as_read_unfold, qs_update_unread.
  eexists; eexists; split; [reflexivity|]. simpl.
  split; [apply length_map|].
  split; [|split].
  - intros i r Hi Hs Hu _.
    rewrite nth_error_map, Hi. simpl.
    rewrite Hs, Hu. reflexivity.
  - intros i r Hi Hu.
    rewrite nth_error_map, Hi. simpl.
    rewrite Hu. simpl. rewrite andb_false_r. reflexivity.
  - f_equal. apply flipped_count.
    intros r Hr. apply andb_true_iff in Hr. now apply value_eqb_bool.
Qed.

Lemma mark_all_as_read_flips_witness :
  exists count db',
    NotificationQuerySet.mark_all_as_read settings_soft None objects sample_db
    = (Ok count, db')
    /\ count = 3.
Proof.
  destruct (mark_all_as_read_flips settings_soft eq_refl objects sample_db)
    as (count & db' & Hrun & _ & _ & _ & Hcount).
  exists count, db'. split; [exact Hrun|].
  injection Hrun as _ Hdb. subst db'. exact Hcount.
Defined.

(** Under soft-delete mode mark_all_as_read does not stop at deleted
    rows: an unread row of the queryset is flipped and counted whether it
    is deleted or not. *)
Lemma mark_all_as_read_reaches_deleted cfg (self : QuerySet) db count db' i r :
  NotificationQuerySet.mark_all_as_read cfg None self db = (Ok count, db') ->
  nth_error (rows db) i = Some r ->
  self r = true -> unread r = VBool true ->
  nth_error (rows db') i = Some (set_unread (VBool false) r).
Proof.
  rewrite mark_all_as_read_unfold, qs_update_unread.
  intros H Hi Hs Hu. inversion H; subst. cbn [rows].
  rewrite nth_error_map, Hi. simpl. now rewrite Hs, Hu.
Qed.

(** ** NotificationQuerySet: the soft-delete gate *)

(** C5: with soft-delete mode disabled, deleted(), active(),
    mark_all_as_deleted() and mark_all_as_active() raise
    ImproperlyConfigured on every queryset and leave the store as it was. *)
Theorem soft_delete_scopes_raise cfg (Hoff : SOFT_DELETE cfg = false)
    (self : QuerySet) (recipient : option ModelObj) (db : DB) :
  NotificationQuerySet.deleted cfg self = Raise (ImproperlyConfigured "REVERTME")
  /\ NotificationQuerySet.active cfg self = Raise (ImproperlyConfigured "REVERTME")
  /\ NotificationQuerySet.mark_all_as_deleted cfg recipient self db
     = (Raise (ImproperlyConfigured "REVERTME"), db)
  /\ NotificationQuerySet.mark_all_as_active cfg recipient self db
     = (Raise (ImproperlyConfigured "REVERTME"), db).
Proof.
  unfold NotificationQuerySet.deleted, NotificationQuerySet.active,
    NotificationQuerySet.mark_all_as_deleted,
    NotificationQuerySet.mark_all_as_active,
    assert_soft_delete, is_soft_delete, bind, lift.
  rewrite Hoff. simpl. repeat split.
Qed.

Lemma soft_delete_scopes_raise_witness :
  NotificationQuerySet.mark_all_as_deleted settings_hard (Some bob) objects sample_db
  = (Raise (ImproperlyConfigured "REVERTME"), sample_db).
Proof.
  apply (soft_delete_scopes_raise settings_hard eq_refl objects (Some bob)
           sample_db).
Defined.

(** ** AbstractNotification: mark_as_read and mark_as_unread *)

(** C10: mark_as_read saves only when unread was true, mark_as_unread only
    when it was false; a second call right after the first returns the
    same instance, leaves the store untouched and issues no write. *)
Theorem mark_as_read_unread_idempotent (n : Notification) (db : DB) :
  (exists n1 db1,
     AbstractNotification.mark_as_read n db = (Ok n1, db1)
     /\ AbstractNotification.mark_as_read n1 db1 = (Ok n1, db1)
     /\ (truthy (unread n) = true ->
         unread n1 = VBool false /\ writes db1 = S (writes db))
     /\ (truthy (unread n) = false -> n1 = n /\ db1 = db))
  /\ (exists n1 db1,
     AbstractNotification.mark_as_unread n db = (Ok n1, db1)
     /\ AbstractNotification.mark_as_unread n1 db1 = (Ok n1, db1)
     /\ (truthy (unread n) = false ->
         unread n1 = VBool true /\ writes db1 = S (writes db))
     /\ (truthy (unread n) = true -> n1 = n /\ db1 = db)).
Proof.
  unfold AbstractNotification.mark_as_read, AbstractNotification.mark_as_unread.
  split.
  - destruct (truthy (unread n)) eqn:Hu.
    + unfold save. cbn [id set_unread].
      destruct (id n) eqn:Hid;
        try (eexists; eexists; split; [reflexivity|]; simpl;
             repeat split; discriminate).
      destruct (existsb (has_id z) (rows db));
        (eexists; eexists; split; [reflexivity|]; simpl;
         repeat split; discriminate).
    + exists n, db. rewrite Hu. unfold ret. repeat split; discriminate.
  - destruct (truthy (unread n)) eqn:Hu; simpl.
    + exists n, db. rewrite Hu. unfold ret. repeat split; discriminate.
    + unfold save. cbn [id set_unread].
      destruct (id n) eqn:Hid;
        try (eexists; eexists; split; [reflexivity|]; simpl;
             repeat split; discriminate).
      destruct (existsb (has_id z) (rows db));
        (eexists; eexists; split; [reflexivity|]; simpl;
         repeat split; discriminate).
Qed.

(** ** Keyword dictionaries *)

Lemma kw_get_remove_same key kw : kw_get key (kw_remove key kw) = None.
Proof.
  induction kw as [|[k v] kw IH]; simpl; [reflexivity|].
  destruct (String.eqb k key) eqn:E; simpl; [exact IH|].
  now rewrite E.
Qed.

Lemma kw_get_remove_none key key' kw :
  kw_get key kw = None -> kw_get key (kw_remove key' kw) = None.
Proof.
  induction kw as [|[k v] kw IH]; simpl; [reflexivity|].
  destruct (String.eqb k key) eqn:E; [discriminate|]. intros H.
  destruct (String.eqb k key'); simpl; [auto|].
  rewrite E. auto.
Qed.

Lemma kw_get_remove_other key key' kw :
  key <> key' -> kw_get key (kw_remove key' kw) = kw_get key kw.
Proof.
  intros Hne. induction kw as [|[k v] kw IH]; simpl; [reflexivity|].
  destruct (String.eqb k key') eqn:E'; simpl.
  - apply String.eqb_eq in E'. subst k.
    destruct (String.eqb key' key) eqn:E; [|exact IH].
    apply String.eqb_eq in E. congruence.
  - now rewrite IH.
Qed.

Lemma kw_remove_absent key kw : kw_get key kw = None -> kw_remove key kw = kw.
Proof.
  induction kw as [|[k v] kw IH]; simpl; [reflexivity|].
  destruct (String.eqb k key); [discriminate|]. simpl.
  intros H. now rewrite IH.
Qed.

Lemma kw_keys_remove_incl key kw k :
  In k (kw_keys (kw_remove key kw)) -> In k (kw_keys kw).
Proof.
  unfold kw_keys, kw_remove. rewrite !in_map_iff.
  intros (x & Hx & Hin). apply filter_In in Hin. exists x. tauto.
Qed.

Lemma kw_keys_remove_NoDup key kw :
  NoDup (kw_keys kw) -> NoDup (kw_keys (kw_remove key kw)).
Proof.
  induction kw as [|[k v] kw IH]; simpl; intros H; [constructor|].
  inversion H as [|x xs Hx Hnd]; subst.
  destruct (String.eqb k key); simpl; [auto|].
  constructor; [|auto].
  intros Hin. apply Hx. eapply kw_keys_remove_incl. exact Hin.
Qed.

Lemma kw_get_None_keys key kw : kw_get key kw = None <-> ~ In key (kw_keys kw).
Proof.
  induction kw as [|[k v] kw IH]; simpl; [tauto|].
  destruct (String.eqb k key) eqn:E.
  - apply String.eqb_eq in E. subst. split; [discriminate|tauto].
  - apply String.eqb_neq in E. rewrite IH. tauto.
Qed.

Lemma kw_pop_default_absent key default kw :
  kw_get key kw = None -> kw_pop_default key default kw = (default, kw).
Proof. unfold kw_pop_default. now intros ->. Qed.

Lemma kw_pop_default_remove key default kw :
  kw_pop_default key default kw =
  (match kw_get key kw with Some v => v | None => default end,
   kw_remove key kw).
Proof.
  unfold kw_pop_default. destruct (kw_get key kw) eqn:E; [reflexivity|].
  now rewrite kw_remove_absent.
Qed.

Ltac kw_other :=
  repeat match goal with
         | |- context [kw_get ?k (kw_remove ?k' ?kw)] =>
             rewrite (kw_get_remove_other k k' kw) by discriminate
         end.

(** ** notify_handler: rows of one event *)

(** Setting a column never tells two rows of one event apart, and only
    the columns [id] and [recipient] touch the key and the recipient. *)
Lemma event_of_set_column c v a b :
  event_of a = event_of b ->
  event_of (set_column c v a) = event_of (set_column c v b).
Proof.
  destruct a, b. unfold event_of. cbn. intros H. inversion H; subst.
  destruct c; reflexivity.
Qed.

Lemma event_of_setattr name v a b :
  event_of a = event_of b ->
  event_of (setattr name v a) = event_of (setattr name v b).
Proof.
  unfold setattr. destruct (column_of_name name); [|tauto].
  apply event_of_set_column.
Qed.

Lemma event_of_set_id v n : event_of (set_id v n) = event_of n.
Proof. reflexivity. Qed.

Lemma event_of_fields a b :
  event_of a = event_of b ->
  verb a = verb b
  /\ actor_content_type a = actor_content_type b
  /\ actor_object_id a = actor_object_id b
  /\ target_content_type a = target_content_type b
  /\ target_object_id a = target_object_id b
  /\ action_object_content_type a = action_object_content_type b
  /\ action_object_object_id a = action_object_object_id b
  /\ timestamp a = timestamp b
  /\ level a = level b.
Proof.
  destruct a, b. unfold event_of. cbn. intros H. inversion H; subst.
  repeat split.
Qed.

Ltac name_cases name :=
  unfold column_of_name;
  repeat match goal with
         | |- context [if String.eqb name ?s then Some ?c else _] =>
             let E := fresh "E" in
             destruct (String.eqb name s) eqn:E;
             [apply String.eqb_eq in E|]
         end.

Lemma column_of_name_id name :
  column_of_name name = Some c_id -> name = "id" \/ name = "pk".
Proof. name_cases name; intros H; try discriminate; subst; auto. Qed.

Lemma column_of_name_recipient name :
  column_of_name name = Some c_recipient -> name = "recipient".
Proof. name_cases name; intros H; try discriminate; subst; auto. Qed.

Lemma setattr_keeps name v n :
  name <> "id" -> name <> "pk" -> name <> "recipient" ->
  id (setattr name v n) = id n /\ recipient (setattr name v n) = recipient n.
Proof.
  intros H1 H2 H3. unfold setattr.
  destruct (column_of_name name) as [c|] eqn:E; [|tauto].
  destruct c; try (split; reflexivity).
  - apply column_of_name_id in E. tauto.
  - apply column_of_name_recipient in E. tauto.
Qed.

Lemma set_optional_objs_alike optional_objs :
  forall a b kwargs,
    event_of a = event_of b ->
    alike (set_optional_objs optional_objs a kwargs)
          (set_optional_objs optional_objs b kwargs).
Proof.
  induction optional_objs as [|[obj opt] rest IH]; intros a b kwargs Hab.
  - simpl. auto.
  - destruct obj; cbn [set_optional_objs]; try (now apply IH);
      destruct (kw_pop_default _ _ kwargs) as [flag kw'];
      cbn [attr_pk get_for_model rbind];
      try reflexivity;
      apply IH; now repeat apply event_of_setattr.
Qed.

Lemma set_optional_objs_ok target action_object n kwargs :
  optional_model (Some target) = true ->
  optional_model (Some action_object) = true ->
  kw_get "target_for_concrete_model" kwargs = None ->
  kw_get "action_object_for_concrete_model" kwargs = None ->
  exists n',
    set_optional_objs [(target, "target"); (action_object, "action_object")]
      n kwargs = Ok (n', kwargs)
    /\ id n' = id n /\ recipient n' = recipient n.
Proof.
  intros Ht Ha Hft Hfa.
  destruct target; try discriminate; destruct action_object; try discriminate;
    cbn [set_optional_objs append];
    rewrite ?(kw_pop_default_absent _ _ _ Hft),
            ?(kw_pop_default_absent _ _ _ Hfa);
    cbn [attr_pk get_for_model rbind];
    eexists; (split; [reflexivity|split; reflexivity]).
Qed.

Lemma set_model_columns_alike keys :
  forall a b kwargs_copy,
    event_of a = event_of b ->
    alike (set_model_columns keys a kwargs_copy)
          (set_model_columns keys b kwargs_copy).
Proof.
  induction keys as [|key rest IH]; intros a b kc Hab; simpl; [auto|].
  destruct (hasattr key); [|now apply IH].
  destruct (kw_pop key kc) as [[v kc']|e]; simpl; [|reflexivity].
  apply IH. now apply event_of_setattr.
Qed.

Lemma set_model_columns_ok keys :
  forall n kwargs_copy,
    NoDup keys ->
    (forall k, In k keys -> kw_get k kwargs_copy <> None) ->
    (forall k, In k keys -> k <> "id" /\ k <> "pk" /\ k <> "recipient") ->
    exists n' kwargs_copy',
      set_model_columns keys n kwargs_copy = Ok (n', kwargs_copy')
      /\ id n' = id n /\ recipient n' = recipient n.
Proof.
  induction keys as [|key rest IH]; intros n kc Hnd Hin Hkeys; simpl.
  - eexists; eexists; repeat split.
  - inversion Hnd as [|x xs Hx Hnd']; subst.
    assert (Hrest : forall k, In k rest -> kw_get k (kw_remove key kc) <> None).
    { intros k Hk. rewrite kw_get_remove_other.
      - apply Hin. now right.
      - intros ->. contradiction. }
    destruct (hasattr key).
    + unfold kw_pop. destruct (kw_get key kc) as [v|] eqn:Hget.
      * simpl.
        destruct (IH (setattr key v n) (kw_remove key kc) Hnd' Hrest)
          as (n' & kc' & Hrun & Hid & Hrec).
        { intros k Hk. apply Hkeys. now right. }
        exists n', kc'. split; [exact Hrun|].
        destruct (Hkeys key (or_introl eq_refl)) as (H1 & H2 & H3).
        destruct (setattr_keeps key v n H1 H2 H3) as [Hid' Hrec'].
        rewrite Hid, Hrec. tauto.
      * exfalso. apply (Hin key); [now left|exact Hget].
    + apply IH; auto.
      * intros k Hk. apply Hin. now right.
      * intros k Hk. apply Hkeys. now right.
Qed.

(** ** notify_handler: the loop, away from the concrete-model flags *)

Section FanOut.

Variable cfg : Settings.
Variable verb : string.
Variable o : Options.
Variable kwargs : Kwargs.
Variables target action_object : Value.

Hypothesis actor_is_model : is_model_instance (opt_actor o) = true.
Hypothesis objs :
  opt_optional_objs o = [(target, "target"); (action_object, "action_object")].
Hypothesis target_ok : optional_model (Some target) = true.
Hypothesis action_object_ok : optional_model (Some action_object) = true.
Hypothesis keys_distinct : NoDup (kw_keys kwargs).
Hypothesis no_target_flag : kw_get "target_for_concrete_model" kwargs = None.
Hypothesis no_action_object_flag :
  kw_get "action_object_for_concrete_model" kwargs = None.
Hypothesis no_id : kw_get "id" kwargs = None.
Hypothesis no_pk : kw_get "pk" kwargs = None.
Hypothesis no_recipient : kw_get "recipient" kwargs = None.

(** The instance built for a recipient: it has no key yet, it is
    addressed to that recipient, and [kwargs] is left as it was. *)
Lemma build_notification_ok (to : Value) :
  exists n,
    build_notification cfg verb o to kwargs = Ok (n, kwargs)
    /\ id n = VNone /\ recipient n = to.
Proof.
  unfold build_notification. rewrite objs.
  destruct (opt_actor o); try discriminate; cbn [get_for_model attr_pk rbind].
  all: match goal with
       | |- context [set_optional_objs _ ?n0 kwargs] =>
           destruct (set_optional_objs_ok target action_object n0 kwargs
                       target_ok action_object_ok no_target_flag
                       no_action_object_flag) as (n1 & -> & Hid1 & Hrec1)
       end.
  all: cbn [rbind].
  all: destruct (truthy (VDict kwargs) && USE_JSONFIELD cfg);
    [ unfold set_extra_data;
      destruct (set_model_columns_ok (kw_keys kwargs) n1 kwargs keys_distinct)
        as (n2 & kc & -> & Hid2 & Hrec2);
      [ intros k Hk Hnone; apply kw_get_None_keys in Hnone; contradiction
      | intros k Hk; repeat split; intros ->;
        match goal with
        | H : kw_get _ kwargs = None |- _ =>
            apply kw_get_None_keys in H; contradiction
        end
      | cbn [rbind]; eexists; split; [reflexivity|];
        cbn [id recipient set_data]; rewrite Hid2, Hrec2, Hid1, Hrec1;
        split; reflexivity ]
    | cbn [rbind]; eexists; split; [reflexivity|];
      rewrite Hid1, Hrec1; split; reflexivity ].
Qed.

(** Whatever the recipient, the body of the loop ends alike. *)
Lemma build_notification_alike (to1 to2 : Value) (kw : Kwargs) :
  alike (build_notification cfg verb o to1 kw)
        (build_notification cfg verb o to2 kw).
Proof.
  unfold build_notification.
  destruct (get_for_model _ _) as [ct|e]; [|reflexivity].
  destruct (attr_pk _) as [apk|e]; [|reflexivity].
  cbn [rbind].
  pose proof (set_optional_objs_alike (opt_optional_objs o)
    (new_Notification to1 ct apk verb (opt_public o) (opt_description o)
       (opt_timestamp o) (opt_level o))
    (new_Notification to2 ct apk verb (opt_public o) (opt_description o)
       (opt_timestamp o) (opt_level o)) kw eq_refl) as H.
  destruct (set_optional_objs _ (new_Notification to1 _ _ _ _ _ _ _) kw)
    as [[a ka]|e1];
    destruct (set_optional_objs _ (new_Notification to2 _ _ _ _ _ _ _) kw)
    as [[b kb]|e2]; simpl in H; try contradiction.
  - destruct H as [Hab ->]. cbn [rbind].
    destruct (truthy (VDict kb) && USE_JSONFIELD cfg); [|simpl; auto].
    unfold set_extra_data.
    pose proof (set_model_columns_alike (kw_keys kb) a b kb Hab) as H.
    destruct (set_model_columns _ a kb) as [[a' ka']|e1];
      destruct (set_model_columns _ b kb) as [[b' kb']|e2];
      simpl in H; try contradiction.
    + destruct H as [Hab' ->]. simpl. split; [|reflexivity].
      now apply (event_of_set_column c_data).
    + subst. reflexivity.
  - subst. reflexivity.
Qed.

Lemma save_new n db :
  id n = VNone ->
  save n db =
  (Ok (set_id (VInt (next_id db)) n),
   {| rows := rows db ++ [set_id (VInt (next_id db)) n];
      next_id := next_id db + 1;
      writes := S (writes db) |}).
Proof. intros H. unfold save. now rewrite H. Qed.

(** The loop: one inserted row per recipient, in order, under
    consecutive keys, all rows of one event. *)
Lemma notify_loop_ok (recipients : list Value) :
  forall acc db,
  exists news db',
    notify_loop cfg verb o recipients kwargs acc db = (Ok (acc ++ news), db')
    /\ rows db' = rows db ++ news
    /\ map recipient news = recipients
    /\ map id news = keys_from (next_id db) (List.length recipients)
    /\ (forall x to m k,
          In x news ->
          build_notification cfg verb o to kwargs = Ok (m, k) ->
          event_of x = event_of m).
Proof.
  induction recipients as [|to rest IH]; intros acc db.
  - exists [], db. simpl. unfold ret. rewrite !app_nil_r.
    repeat split. intros x to m k [].
  - destruct (build_notification_ok to) as (n & Hb & Hid & Hrec).
    cbn [notify_loop]. unfold bind at 1. unfold lift. rewrite Hb.
    unfold bind at 1. rewrite (save_new n db Hid).
    destruct (IH (acc ++ [set_id (VInt (next_id db)) n])
                {| rows := rows db ++ [set_id (VInt (next_id db)) n];
                   next_id := next_id db + 1;
                   writes := S (writes db) |})
      as (news & db' & Hrun & Hrows & Hrcp & Hids & Hev).
    exists (set_id (VInt (next_id db)) n :: news), db'.
    rewrite Hrun, Hrows. cbn [rows next_id] in *.
    rewrite <- !app_assoc. simpl.
    repeat split.
    + now rewrite Hrec, Hrcp.
    + now rewrite Hids.
    + intros x to0 m k [<-|Hx] Hm.
      * rewrite event_of_set_id.
        pose proof (build_notification_alike to to0 kwargs) as H.
        rewrite Hb, Hm in H. apply H.
      * eapply Hev; eauto.
Qed.

Lemma notify_loop_fan_out (recipients : list Value) (db : DB) :
  exists news db',
    notify_loop cfg verb o recipients kwargs [] db = (Ok news, db')
    /\ rows db' = rows db ++ news
    /\ map recipient news = recipients
    /\ map id news = keys_from (next_id db) (List.length recipients)
    /\ (forall x y, In x news -> In y news -> event_of x = event_of y).
Proof.
  destruct (notify_loop_ok recipients [] db)
    as (news & db' & Hrun & Hrows & Hrcp & Hids & Hev).
  destruct (build_notification_ok VNone) as (m & Hm & _).
  exists news, db'. repeat split; auto.
  intros x y Hx Hy.
  rewrite (Hev x VNone m kwargs Hx Hm), (Hev y VNone m kwargs Hy Hm).
  reflexivity.
Qed.

End FanOut.

(** The fan-out of notify_handler for a call that passes no
    [*_for_concrete_model] flag for its optional objects and no primary
    key: it returns one row per recipient, in order; these rows are
    exactly what is added to the table, under consecutive fresh keys; and
    any two of them agree on verb, actor, target, action object,
    timestamp and level, and on every column but key and recipient. *)
Theorem notify_handler_fan_out cfg (now : Z) (verb_text : string) (kwargs : Kwargs)
    (db : DB) (actor to : Value) (ids : list Value)
    (Hkeys : NoDup (kw_keys kwargs))
    (Hsender : kw_get "sender" kwargs = Some actor)
    (Hactor : is_model_instance actor = true)
    (Hrecipient : kw_get "recipient" kwargs = Some to)
    (Hids : recipient_ids (recipients_of to) = Ok ids)
    (Htarget : optional_model (kw_get "target" kwargs) = true)
    (Haction : optional_model (kw_get "action_object" kwargs) = true)
    (Htflag : kw_get "target_for_concrete_model" kwargs = None)
    (Haflag : kw_get "action_object_for_concrete_model" kwargs = None)
    (Hid : kw_get "id" kwargs = None)
    (Hpk : kw_get "pk" kwargs = None) :
  exists news db',
    notify_handler cfg now verb_text kwargs db = (Ok news, db')
    /\ rows db' = rows db ++ news
    /\ map recipient news = ids
    /\ map id news = keys_from (next_id db) (List.length ids)
    /\ forall a b, In a news -> In b news ->
         event_of a = event_of b
         /\ verb a = verb b
         /\ actor_content_type a = actor_content_type b
         /\ actor_object_id a = actor_object_id b
         /\ target_content_type a = target_content_type b
         /\ target_object_id a = target_object_id b
         /\ action_object_content_type a = action_object_content_type b
         /\ action_object_object_id a = action_object_object_id b
         /\ timestamp a = timestamp b
         /\ level a = level b.
Proof.
  unfold notify_handler.
  rewrite !kw_pop_default_remove. cbv beta iota zeta.
  unfold kw_pop. kw_other. rewrite Hrecipient.
  unfold bind at 1. unfold lift at 1. cbv beta iota.
  kw_other. rewrite Hsender.
  unfold bind at 1. unfold lift at 1. cbv beta iota.
  rewrite !kw_pop_default_remove. cbv beta iota zeta.
  unfold bind at 1. unfold lift at 1. rewrite Hids.
  kw_other.
  match goal with
  | |- context [notify_loop cfg verb_text ?o ids ?kw []] =>
      destruct (notify_loop_fan_out cfg verb_text o kw
                  (match kw_get "target" kwargs with Some v => v | None => VNone end)
                  (match kw_get "action_object" kwargs with Some v => v | None => VNone end))
        with (recipients := ids) (db := db)
        as (news & db' & Hrun & Hrows & Hrcp & Hkeys' & Hev)
  end.
  - exact Hactor.
  - reflexivity.
  - destruct (kw_get "target" kwargs) as [[]|]; auto.
  - destruct (kw_get "action_object" kwargs) as [[]|]; auto.
  - now repeat apply kw_keys_remove_NoDup.
  - now repeat apply kw_get_remove_none.
  - now repeat apply kw_get_remove_none.
  - now repeat apply kw_get_remove_none.
  - now repeat apply kw_get_remove_none.
  - repeat (apply kw_get_remove_same || apply kw_get_remove_none).
  - exists news, db'. rewrite Hrun.
    repeat split; auto; apply event_of_fields; auto.
Qed.

(** The scenario of two recipients and a target, with no flag:
    both rows point at the target through the same reference. *)
Lemma notify_handler_fan_out_example :
  exists news db',
    notify_handler settings_hard 1000 "commented"
      [("sender", VObj alice);
       ("recipient", VList [VObj bob; VObj carol]);
       ("target", VObj proxy_post)] empty_db
    = (Ok news, db')
    /\ rows db' = news
    /\ map recipient news = [VInt 2; VInt 3]
    /\ map id news = [VInt 1; VInt 2]
    /\ forall a b, In a news -> In b news ->
         target_content_type a = target_content_type b
         /\ target_object_id a = target_object_id b.
Proof.
  destruct (notify_handler_fan_out settings_hard 1000 "commented"
              [("sender", VObj alice);
               ("recipient", VList [VObj bob; VObj carol]);
               ("target", VObj proxy_post)] empty_db
              (VObj alice) (VList [VObj bob; VObj carol]) [VInt 2; VInt 3])
    as (news & db' & Hrun & Hrows & Hrcp & Hids & Hev);
    try reflexivity.
  - repeat constructor; simpl; intuition discriminate.
  - exists news, db'. repeat split; auto; now apply Hev.
Defined.

(** ** notify_handler: the concrete-model flag of an optional object *)

(** A notify call for two recipients about a proxy-model target whose
    content type is to be kept as the proxy's: what is stored and
    returned. *)
Lemma notify_proxy_target_rows :
  let row i to ct :=
    set_target_content_type (VInt ct)
      (set_target_object_id (VInt 7)
         (set_id (VInt i)
            (new_Notification (VInt to) (VInt 4) (VInt 1) "commented" true
               VNone (VInt 1000) (VStr "info")))) in
  notify_handler settings_hard 1000 "commented"
    [("sender", VObj alice);
     ("recipient", VList [VObj bob; VObj carol]);
     ("target", VObj proxy_post);
     ("target_for_concrete_model", VBool false)] empty_db
  = (Ok [row 1 2 21; row 2 3 20],
     {| rows := [row 1 2 21; row 2 3 20]; next_id := 3; writes := 2 |}).
Proof. reflexivity. Qed.

(** C1, at a call the code can receive: notify for two recipients with a
    proxy-model target and target_for_concrete_model=False.  Two rows are
    created, but they do not share the target reference: the first row
    carries the proxy's content type, the second the concrete model's. *)
Theorem notify_handler_target_reference_not_shared :
  exists r1 r2 db',
    notify_handler settings_hard 1000 "commented"
      [("sender", VObj alice);
       ("recipient", VList [VObj bob; VObj carol]);
       ("target", VObj proxy_post);
       ("target_for_concrete_model", VBool false)] empty_db
    = (Ok [r1; r2], db')
    /\ target_content_type r1 <> target_content_type r2.
Proof.
  pose proof notify_proxy_target_rows as H. cbv zeta in H.
  eexists; eexists; eexists. split; [exact H|].
  simpl. discriminate.
Qed.

(** ** Views: the JSON endpoints *)

(** C9: for an unauthenticated request every JSON endpoint answers with a
    zero count and/or an empty list, reads nothing and raises nothing; the
    unread-count endpoint answers [{"unread_count": 0}]. *)
Theorem json_endpoints_anonymous
    (get_notification_list : HttpRequest -> option string -> M Value)
    (request : HttpRequest) (db : DB) (Hanon : user request = None) :
  Views.live_unread_notification_count request db
    = (Ok (JsonResponse [("unread_count", VInt 0)]), db)
  /\ Views.live_unread_notification_list get_notification_list request db
    = (Ok (JsonResponse [("unread_count", VInt 0); ("unread_list", VList [])]), db)
  /\ Views.live_all_notification_list get_notification_list request db
    = (Ok (JsonResponse [("all_count", VInt 0); ("all_list", VList [])]), db)
  /\ Views.live_all_notification_count request db
    = (Ok (JsonResponse [("all_count", VInt 0)]), db).
Proof.
  unfold Views.live_unread_notification_count,
    Views.live_unread_notification_list,
    Views.live_all_notification_list,
    Views.live_all_notification_count, is_authenticated.
  rewrite Hanon. simpl. unfold ret. repeat split.
Qed.

Lemma json_endpoints_anonymous_witness :
  Views.live_unread_notification_count (request_of None) sample_db
    = (Ok (JsonResponse [("unread_count", VInt 0)]), sample_db).
Proof.
  apply (json_endpoints_anonymous (fun _ _ => ret VNone) (request_of None)
           sample_db).
  reflexivity.
Defined.

(** ** Views: the list of all notifications *)

(** With soft-delete mode off, the list view is the requesting user's
    notifications. *)
Lemma all_list_hard_delete cfg u request :
  SOFT_DELETE cfg = false -> user request = Some u ->
  exists qs,
    Views.AllNotificationsList_get_queryset cfg request = Ok qs
    /\ forall db r, In r (qs_rows qs db) <->
                    In r (rows db) /\ recipient r = VInt (pk u).
Proof.
  intros H Hu. unfold Views.AllNotificationsList_get_queryset, user_id.
  rewrite H, Hu. eexists; split; [reflexivity|].
  intros db r. rewrite In_qs_rows. unfold objects. simpl.
  change (lookup_matches "recipient" (VInt (pk u)) r)
    with (value_eqb (recipient r) (VInt (pk u))).
  rewrite value_eqb_int. reflexivity.
Qed.

(** With soft-delete mode on, the list view filters on a keyword that is
    not a field of the model, whoever asks. *)
Lemma all_list_soft_delete_raises cfg request :
  SOFT_DELETE cfg = true ->
  Views.AllNotificationsList_get_queryset cfg request = Raise (FieldError "active").
Proof.
  intros H. unfold Views.AllNotificationsList_get_queryset. rewrite H.
  reflexivity.
Qed.

(** C7, at a request the code can receive: soft-delete mode on, bob
    signed in.  Instead of bob's active notifications, get_queryset raises
    FieldError for the keyword [active]. *)
Theorem all_list_soft_delete_field_error :
  Views.AllNotificationsList_get_queryset settings_soft (request_of (Some bob))
  = Raise (FieldError "active").
Proof. reflexivity. Qed.

(** ** Views: delete_all *)

(** Whoever is signed in, delete_all stops at the attribute lookup: the
    store is left as it was and no redirect is produced. *)
Lemma delete_all_raises cfg allowed iri request db :
  is_authenticated request = true ->
  Views.delete_all cfg allowed iri request db
  = (Raise (AttributeError "delete_all"), db).
Proof.
  intros H. unfold Views.delete_all, login_required. rewrite H.
  reflexivity.
Qed.

(** C8, at a request the code can receive: bob signed in, three rows of
    his in the table.  delete_all raises AttributeError, removes or marks
    nothing and does not redirect. *)
Theorem delete_all_attribute_error :
  Views.delete_all settings_hard (fun _ _ => false) (fun url => url)
    (request_of (Some bob)) sample_db
  = (Raise (AttributeError "delete_all"), sample_db)
  /\ Views.delete_all settings_soft (fun _ _ => false) (fun url => url)
    (request_of (Some bob)) sample_db
  = (Raise (AttributeError "delete_all"), sample_db).
Proof. split; reflexivity. Qed.

(** ** Views: delete *)

Lemma no_match_outside (P : Notification -> bool) i l :
  ~ In (VInt i) (map id l) -> filter (fun r => P r && has_id i r) l = [].
Proof.
  induction l as [|r l IH]; simpl; intros Hn; [reflexivity|].
  destruct (has_id i r) eqn:E.
  - apply has_id_true in E. exfalso. apply Hn. now left.
  - rewrite andb_false_r. apply IH. tauto.
Qed.

(** Primary keys are unique, so a lookup by key finds one row. *)
Lemma unique_match (P : Notification -> bool) i n l :
  NoDup (map id l) -> In n l -> id n = VInt i -> P n = true ->
  filter (fun r => P r && has_id i r) l = [n].
Proof.
  induction l as [|r l IH]; simpl; intros Hnd Hin Hid HP; [contradiction|].
  inversion Hnd as [|x xs Hx Hnd']; subst.
  destruct Hin as [->|Hin].
  - rewrite HP. simpl.
    replace (has_id i n) with true by (symmetry; now apply has_id_true).
    f_equal. apply no_match_outside. now rewrite <- Hid.
  - destruct (has_id i r) eqn:E.
    + apply has_id_true in E. exfalso. apply Hx.
      rewrite E, <- Hid. now apply in_map.
    + rewrite andb_false_r. now apply IH.
Qed.

Lemma get_object_or_404_found db n i u :
  NoDup (map id (rows db)) -> In n (rows db) ->
  id n = VInt i -> recipient n = VInt u ->
  get_object_or_404 [("recipient", VInt u); ("id", VInt i)] db = (Ok n, db).
Proof.
  intros Hnd Hin Hid Hrec.
  unfold get_object_or_404. simpl. unfold qs_rows.
  change (filter _ (rows db))
    with (filter (fun r => (objects r && value_eqb (recipient r) (VInt u))
                           && has_id i r) (rows db)).
  rewrite (unique_match _ i n); auto.
  unfold objects. simpl. now apply value_eqb_int.
Qed.

Lemma existsb_has_id i n l :
  In n l -> id n = VInt i -> existsb (has_id i) l = true.
Proof.
  intros Hin Hid. apply existsb_exists. exists n. split; [exact Hin|].
  now apply has_id_true.
Qed.

(** C6: an authenticated delete request for an existing notification of
    the requesting user redirects; with soft-delete mode on the row stays
    in the table with deleted = true and active() no longer returns it,
    with soft-delete mode off no row with that key is left.  Every other
    row is kept as it was. *)
Theorem delete_view cfg allowed iri (request : HttpRequest) (u : ModelObj)
    (i : Z) (n : Notification) (db : DB)
    (Hauth : user request = Some u)
    (Huniq : NoDup (map id (rows db)))
    (Hin : In n (rows db))
    (Hid : id n = VInt i)
    (Hrec : recipient n = VInt (pk u)) :
  exists db',
    Views.delete cfg allowed iri (Some (id2slug i)) request db
    = (Ok (Views.redirect_next cfg allowed iri request "notifications:all"), db')
    /\ (forall r, In r (rows db) -> id r <> VInt i -> In r (rows db'))
    /\ (SOFT_DELETE cfg = true ->
        In (set_deleted (VBool true) n) (rows db')
        /\ List.length (rows db') = List.length (rows db)
        /\ exists qa,
             NotificationQuerySet.active cfg objects = Ok qa
             /\ forall r, In r (qs_rows qa db') -> id r <> VInt i)
    /\ (SOFT_DELETE cfg = false ->
        (forall r, In r (rows db') -> id r <> VInt i)
        /\ (forall r, In r (rows db') -> In r (rows db))).
Proof.
  unfold Views.delete, login_required, is_authenticated, user_id.
  rewrite Hauth. unfold bind at 1.
  replace (slug2id (id2slug i)) with i by (unfold slug2id, id2slug; lia).
  rewrite (get_object_or_404_found db n i (pk u)) by assumption.
  destruct (SOFT_DELETE cfg) eqn:Hsoft.
  - unfold bind, save, ret. cbn [id set_deleted]. rewrite Hid.
    rewrite (existsb_has_id i n) by assumption.
    eexists; split; [reflexivity|]. cbn [rows].
    split; [|split; [intros _|discriminate]].
    + intros r Hr Hne. apply in_map_iff. exists r. split; [|exact Hr].
      destruct (has_id i r) eqn:E; [|reflexivity].
      apply has_id_true in E. contradiction.
    + split; [|split].
      * apply in_map_iff. exists n. split; [|exact Hin].
        replace (has_id i n) with true by (symmetry; now apply has_id_true).
        reflexivity.
      * apply length_map.
      * unfold NotificationQuerySet.active, assert_soft_delete, is_soft_delete.
        rewrite Hsoft. eexists; split; [reflexivity|].
        intros r Hr Heq. apply In_qs_rows in Hr. cbn [rows] in Hr.
        destruct Hr as [Hr Hq]. apply in_map_iff in Hr.
        destruct Hr as (r0 & Hr0 & _).
        assert (E : has_id i r0 = true).
        { destruct (has_id i r0) eqn:E; [reflexivity|].
          subst r0. apply has_id_true in Heq. congruence. }
        rewrite E in Hr0. subst r. discriminate.
  - unfold bind, delete_instance, ret. rewrite Hid.
    eexists; split; [reflexivity|]. cbn [rows].
    split; [|split; [discriminate|intros _; split]].
    + intros r Hr Hne. apply filter_In. split; [exact Hr|].
      apply negb_true_iff. destruct (has_id i r) eqn:E; [|reflexivity].
      apply has_id_true in E. contradiction.
    + intros r Hr Heq. apply filter_In in Hr. destruct Hr as [_ Hr].
      apply has_id_true in Heq. rewrite Heq in Hr. discriminate.
    + intros r Hr. apply filter_In in Hr. tauto.
Qed.

Lemma delete_view_witness :
  exists db',
    Views.delete settings_soft (fun _ _ => false) (fun url => url)
      (Some (id2slug 1)) (request_of (Some bob)) sample_db
    = (Ok (RedirectRoute "notifications:all"), db')
    /\ In (stored 1 2 true true) (rows db').
Proof.
  destruct (delete_view settings_soft (fun _ _ => false) (fun url => url)
              (request_of (Some bob)) bob 1 (stored 1 2 true false) sample_db)
    as (db' & Hrun & _ & Hsoft & _).
  - reflexivity.
  - repeat constructor; simpl; intuition discriminate.
  - simpl. now left.
  - reflexivity.
  - reflexivity.
  - exists db'. split; [exact Hrun|]. apply Hsoft. reflexivity.
Defined.

(** * Further properties of the code *)

(** ** NotificationQuerySet: the remaining scopes *)

(** sent() and unsent() keep exactly the rows of the queryset with
    emailed = true, respectively false; no row is in both. *)
Theorem sent_unsent_split (self : QuerySet) :
  exists qsent qunsent,
    NotificationQuerySet.sent self = Ok qsent
    /\ NotificationQuerySet.unsent self = Ok qunsent
    /\ forall db r,
         (In r (qs_rows qsent db) <->
            In r (qs_rows self db) /\ emailed r = VBool true)
         /\ (In r (qs_rows qunsent db) <->
            In r (qs_rows self db) /\ emailed r = VBool false)
         /\ ~ (In r (qs_rows qsent db) /\ In r (qs_rows qunsent db)).
Proof.
  eexists; eexists; split; [reflexivity|]; split; [reflexivity|].
  intros db r. rewrite !In_qs_rows.
  change (lookup_matches "emailed" (VBool true) r)
    with (value_eqb (emailed r) (VBool true)).
  change (lookup_matches "emailed" (VBool false) r)
    with (value_eqb (emailed r) (VBool false)).
  rewrite !andb_true_iff, !value_eqb_bool.
  repeat split; try tauto.
  intros [(_ & _ & H1) (_ & _ & H2)]. congruence.
Qed.

(** With soft-delete mode on, deleted() and active() succeed and keep
    exactly the rows of the queryset with deleted = true, respectively
    false. *)
Theorem deleted_active_split cfg (Hsoft : SOFT_DELETE cfg = true)
    (self : QuerySet) :
  exists qdel qact,
    NotificationQuerySet.deleted cfg self = Ok qdel
    /\ NotificationQuerySet.active cfg self = Ok qact
    /\ forall db r,
         (In r (qs_rows qdel db) <->
            In r (qs_rows self db) /\ deleted r = VBool true)
         /\ (In r (qs_rows qact db) <->
            In r (qs_rows self db) /\ deleted r = VBool false)
         /\ ~ (In r (qs_rows qdel db) /\ In r (qs_rows qact db)).
Proof.
  unfold NotificationQuerySet.deleted, NotificationQuerySet.active,
    assert_soft_delete, is_soft_delete.
  rewrite Hsoft.
  eexists; eexists; split; [reflexivity|]; split; [reflexivity|].
  intros db r. rewrite !In_qs_rows.
  change (lookup_matches "deleted" (VBool true) r)
    with (value_eqb (deleted r) (VBool true)).
  change (lookup_matches "deleted" (VBool false) r)
    with (value_eqb (deleted r) (VBool false)).
  rewrite !andb_true_iff, !value_eqb_bool.
  repeat split; try tauto.
  intros [(_ & _ & H1) (_ & _ & H2)]. congruence.
Qed.

Lemma deleted_active_split_witness :
  exists qact,
    NotificationQuerySet.active settings_soft objects = Ok qact
    /\ List.length (qs_rows qact sample_db) = 3%nat.
Proof.
  destruct (deleted_active_split settings_soft eq_refl objects)
    as (qdel & qact & _ & Hact & _).
  exists qact. split; [exact Hact|].
  injection Hact as <-. reflexivity.
Defined.

(** With soft-delete mode on, the default unread() is unread(True) taken
    on active(), and the same for read(): the three scopes compose to the
    same condition on a row. *)
Theorem unread_composes_with_active cfg (Hsoft : SOFT_DELETE cfg = true)
    (self : QuerySet) :
  exists qact qu qr qau qar,
    NotificationQuerySet.active cfg self = Ok qact
    /\ NotificationQuerySet.unread cfg false self = Ok qu
    /\ NotificationQuerySet.read cfg false self = Ok qr
    /\ NotificationQuerySet.unread cfg true qact = Ok qau
    /\ NotificationQuerySet.read cfg true qact = Ok qar
    /\ (forall r, qu r = qau r)
    /\ (forall r, qr r = qar r).
Proof.
  unfold NotificationQuerySet.active, NotificationQuerySet.unread,
    NotificationQuerySet.read, assert_soft_delete, is_soft_delete.
  rewrite Hsoft. cbn [negb andb rbind].
  do 5 eexists.
  repeat (split; [reflexivity|]).
  split; intros r; cbn beta;
    destruct (self r), (lookup_matches "unread" _ r),
      (lookup_matches "deleted" _ r); reflexivity.
Qed.

Lemma unread_composes_with_active_witness :
  exists qu,
    NotificationQuerySet.unread settings_soft false objects = Ok qu
    /\ map id (qs_rows qu sample_db) = [VInt 1; VInt 4].
Proof.
  destruct (unread_composes_with_active settings_soft eq_refl objects)
    as (qact & qu & qr & qau & qar & _ & Hu & _).
  exists qu. split; [exact Hu|].
  injection Hu as <-. reflexivity.
Defined.

(** ** NotificationQuerySet: the bulk mutators *)

Lemma qs_update_column name c v (q : QuerySet) db :
  column_of_name name = Some c ->
  qs_update [(name, v)] q db =
  (Ok (Z.of_nat (List.length (filter q (rows db)))),
   {| rows := map (fun r => if q r then set_column c v r else r) (rows db);
      next_id := next_id db;
      writes := S (writes db) |}).
Proof.
  intros H. unfold qs_update, is_field, setattr. simpl. rewrite H. reflexivity.
Qed.

Lemma set_column_twice c v w r :
  set_column c w (set_column c v r) = set_column c w r.
Proof. destruct c; reflexivity. Qed.

Lemma get_set_column c v r : get_column c (set_column c v r) = v.
Proof. destruct c; reflexivity. Qed.

Lemma map_unmatched (q : QuerySet) (g : Notification -> Notification) l :
  filter q l = [] -> map (fun r => if q r then g r else r) l = l.
Proof.
  induction l as [|r l IH]; simpl; [reflexivity|].
  destruct (q r); [discriminate|]. intros H. now rewrite IH.
Qed.

Section BulkFlip.

Variables (c : Column) (b : bool) (q : QuerySet).

Hypothesis q_flag : forall r, q r = true -> get_column c r = VBool b.

Lemma flip_one_column l :
  Forall2 (fun r r' => set_column c VNone r' = set_column c VNone r)
    l (map (fun r => if q r then set_column c (VBool (negb b)) r else r) l).
Proof.
  induction l as [|r l IH]; simpl; constructor; [|exact IH].
  destruct (q r); [apply set_column_twice|reflexivity].
Qed.

Lemma flip_leaves_none l :
  filter q (map (fun r => if q r then set_column c (VBool (negb b)) r else r) l)
  = [].
Proof.
  induction l as [|r l IH]; simpl; [reflexivity|].
  destruct (q r) eqn:Hr.
  - destruct (q (set_column c (VBool (negb b)) r)) eqn:Hr'; [|exact IH].
    apply q_flag in Hr'. rewrite get_set_column in Hr'.
    destruct b; discriminate.
  - rewrite Hr. exact IH.
Qed.

End BulkFlip.

(** A mutator that is one UPDATE of the column named [name] over a
    condition of the form "selected and flag = b". *)
Lemma bulk_flip_update name c b (sel q : QuerySet) (run : M Z) :
  column_of_name name = Some c ->
  (forall r, q r = sel r && value_eqb (get_column c r) (VBool b)) ->
  (forall db, run db = qs_update [(name, VBool (negb b))] q db) ->
  forall db, bulk_flip c b sel run db.
Proof.
  intros Hname Hq Hrun db.
  assert (q_flag : forall r, q r = true -> get_column c r = VBool b).
  { intros r Hr. rewrite Hq in Hr. apply andb_true_iff in Hr.
    now apply value_eqb_bool. }
  unfold bulk_flip. rewrite Hrun, (qs_update_column _ c _ _ _ Hname).
  eexists; eexists; split; [reflexivity|]. cbn [rows next_id].
  split; [now apply flip_one_column|].
  split; [|split; [|split; [|split]]].
  - intros i r Hi Hs Hf. rewrite nth_error_map, Hi. simpl.
    rewrite Hq, Hs, Hf. simpl.
    replace (Bool.eqb b b) with true by (now destruct b). reflexivity.
  - intros i r Hi Hno. rewrite nth_error_map, Hi. simpl.
    destruct (q r) eqn:Hr; [|reflexivity].
    pose proof (q_flag r Hr) as Hf. rewrite Hq in Hr.
    apply andb_true_iff in Hr. destruct Hno as [Hno|Hno];
      [destruct Hr; congruence|contradiction].
  - f_equal. f_equal. apply filter_ext. exact Hq.
  - reflexivity.
  - rewrite Hrun, (qs_update_column _ c _ _ _ Hname). cbn [rows next_id].
    rewrite (flip_leaves_none c b q q_flag).
    eexists; split; [reflexivity|]. cbn [rows].
    apply map_unmatched. apply (flip_leaves_none c b q q_flag).
Qed.

Ltac lookups_to_columns :=
  cbv beta iota delta [lookup_matches getattr column_of_name get_column
                       String.eqb Ascii.eqb Bool.eqb recipient_is].

Ltac same_condition :=
  let r := fresh "r" in
  intros r; lookups_to_columns;
  repeat match goal with
         | |- context [value_eqb ?a ?v] =>
             let x := fresh "x" in
             generalize (value_eqb a v); intros x
         end;
  destruct (_ r);
  repeat match goal with x : bool |- _ => destruct x end;
  reflexivity.

(** mark_all_as_read, with or without a recipient: it touches the unread
    column only, turns the unread rows of the queryset (of that
    recipient) into read rows whether they are deleted or not, leaves
    every other row alone, returns their number, and is without effect
    when repeated. *)
Theorem mark_all_as_read_bulk cfg (recipient_arg : option ModelObj)
    (self : QuerySet) (db : DB) :
  bulk_flip c_unread true (fun r => self r && recipient_is recipient_arg r)
    (NotificationQuerySet.mark_all_as_read cfg recipient_arg self) db.
Proof.
  destruct recipient_arg as [u|].
  - apply (bulk_flip_update "unread" c_unread true _
             (fun r => self r && lookup_matches "unread" (VBool true) r
                       && lookup_matches "recipient" (VInt (pk u)) r));
      [reflexivity|same_condition|].
    intros db0. unfold NotificationQuerySet.mark_all_as_read,
      NotificationQuerySet.unread. rewrite andb_false_r. reflexivity.
  - apply (bulk_flip_update "unread" c_unread true _
             (fun r => self r && lookup_matches "unread" (VBool true) r));
      [reflexivity|same_condition|].
    intros db0. unfold NotificationQuerySet.mark_all_as_read,
      NotificationQuerySet.unread. rewrite andb_false_r. reflexivity.
Qed.

(** mark_all_as_unread is the mirror image: read rows of the queryset (of
    the recipient) become unread. *)
Theorem mark_all_as_unread_bulk cfg (recipient_arg : option ModelObj)
    (self : QuerySet) (db : DB) :
  bulk_flip c_unread false (fun r => self r && recipient_is recipient_arg r)
    (NotificationQuerySet.mark_all_as_unread cfg recipient_arg self) db.
Proof.
  destruct recipient_arg as [u|].
  - apply (bulk_flip_update "unread" c_unread false _
             (fun r => self r && lookup_matches "unread" (VBool false) r
                       && lookup_matches "recipient" (VInt (pk u)) r));
      [reflexivity|same_condition|].
    intros db0. unfold NotificationQuerySet.mark_all_as_unread,
      NotificationQuerySet.read. rewrite andb_false_r. reflexivity.
  - apply (bulk_flip_update "unread" c_unread false _
             (fun r => self r && lookup_matches "unread" (VBool false) r));
      [reflexivity|same_condition|].
    intros db0. unfold NotificationQuerySet.mark_all_as_unread,
      NotificationQuerySet.read. rewrite andb_false_r. reflexivity.
Qed.

(** mark_as_sent moves the unsent rows of the queryset (of the recipient)
    to emailed = true and touches nothing else. *)
Theorem mark_as_sent_bulk (recipient_arg : option ModelObj)
    (self : QuerySet) (db : DB) :
  bulk_flip c_emailed false (fun r => self r && recipient_is recipient_arg r)
    (NotificationQuerySet.mark_as_sent recipient_arg self) db.
Proof.
  destruct recipient_arg as [u|].
  - apply (bulk_flip_update "emailed" c_emailed false _
             (fun r => self r && lookup_matches "emailed" (VBool false) r
                       && lookup_matches "recipient" (VInt (pk u)) r));
      [reflexivity|same_condition|reflexivity].
  - apply (bulk_flip_update "emailed" c_emailed false _
             (fun r => self r && lookup_matches "emailed" (VBool false) r));
      [reflexivity|same_condition|reflexivity].
Qed.

(** mark_as_unsent moves the sent rows back to emailed = false. *)
Theorem mark_as_unsent_bulk (recipient_arg : option ModelObj)
    (self : QuerySet) (db : DB) :
  bulk_flip c_emailed true (fun r => self r && recipient_is recipient_arg r)
    (NotificationQuerySet.mark_as_unsent recipient_arg self) db.
Proof.
  destruct recipient_arg as [u|].
  - apply (bulk_flip_update "emailed" c_emailed true _
             (fun r => self r && lookup_matches "emailed" (VBool true) r
                       && lookup_matches "recipient" (VInt (pk u)) r));
      [reflexivity|same_condition|reflexivity].
  - apply (bulk_flip_update "emailed" c_emailed true _
             (fun r => self r && lookup_matches "emailed" (VBool true) r));
      [reflexivity|same_condition|reflexivity].
Qed.

(** With soft-delete mode on, mark_all_as_deleted moves the active rows
    of the queryset (of the recipient) to deleted = true and touches
    nothing else. *)
Theorem mark_all_as_deleted_bulk cfg (Hsoft : SOFT_DELETE cfg = true)
    (recipient_arg : option ModelObj) (self : QuerySet) (db : DB) :
  bulk_flip c_deleted false (fun r => self r && recipient_is recipient_arg r)
    (NotificationQuerySet.mark_all_as_deleted cfg recipient_arg self) db.
Proof.
  destruct recipient_arg as [u|].
  - apply (bulk_flip_update "deleted" c_deleted false _
             (fun r => self r && lookup_matches "deleted" (VBool false) r
                       && lookup_matches "recipient" (VInt (pk u)) r));
      [reflexivity|same_condition|].
    intros db0. unfold NotificationQuerySet.mark_all_as_deleted,
      NotificationQuerySet.active, assert_soft_delete, is_soft_delete.
    rewrite Hsoft. reflexivity.
  - apply (bulk_flip_update "deleted" c_deleted false _
             (fun r => self r && lookup_matches "deleted" (VBool false) r));
      [reflexivity|same_condition|].
    intros db0. unfold NotificationQuerySet.mark_all_as_deleted,
      NotificationQuerySet.active, assert_soft_delete, is_soft_delete.
    rewrite Hsoft. reflexivity.
Qed.

(** With soft-delete mode on, mark_all_as_active moves the deleted rows
    of the queryset (of the recipient) back to deleted = false. *)
Theorem mark_all_as_active_bulk cfg (Hsoft : SOFT_DELETE cfg = true)
    (recipient_arg : option ModelObj) (self : QuerySet) (db : DB) :
  bulk_flip c_deleted true (fun r => self r && recipient_is recipient_arg r)
    (NotificationQuerySet.mark_all_as_active cfg recipient_arg self) db.
Proof.
  destruct recipient_arg as [u|].
  - apply (bulk_flip_update "deleted" c_deleted true _
             (fun r => self r && lookup_matches "deleted" (VBool true) r
                       && lookup_matches "recipient" (VInt (pk u)) r));
      [reflexivity|same_condition|].
    intros db0. unfold NotificationQuerySet.mark_all_as_active,
      NotificationQuerySet.deleted, assert_soft_delete, is_soft_delete.
    rewrite Hsoft. reflexivity.
  - apply (bulk_flip_update "deleted" c_deleted true _
             (fun r => self r && lookup_matches "deleted" (VBool true) r));
      [reflexivity|same_condition|].
    intros db0. unfold NotificationQuerySet.mark_all_as_active,
      NotificationQuerySet.deleted, assert_soft_delete, is_soft_delete.
    rewrite Hsoft. reflexivity.
Qed.

Lemma mark_all_as_deleted_bulk_witness :
  bulk_flip c_deleted false (fun r => objects r && recipient_is (Some bob) r)
    (NotificationQuerySet.mark_all_as_deleted settings_soft (Some bob) objects)
    sample_db.
Proof. apply mark_all_as_deleted_bulk. reflexivity. Defined.

Lemma mark_all_as_active_bulk_witness :
  bulk_flip c_deleted true (fun r => objects r && recipient_is (Some bob) r)
    (NotificationQuerySet.mark_all_as_active settings_soft (Some bob) objects)
    sample_db.
Proof. apply mark_all_as_active_bulk. reflexivity. Defined.

Lemma set_deleted_same r : set_deleted (deleted r) r = r.
Proof. now destruct r. Qed.

Lemma set_unread_same r : set_unread (unread r) r = r.
Proof. now destruct r. Qed.

Lemma length_filter_map (q q' : QuerySet) (f : Notification -> Notification) l :
  (forall r, In r l -> q' (f r) = q r) ->
  List.length (filter q' (map f l)) = List.length (filter q l).
Proof.
  induction l as [|r l IH]; intros H; simpl; [reflexivity|].
  rewrite (H r (or_introl eq_refl)).
  destruct (q r); simpl; rewrite IH; auto; intros; apply H; now right.
Qed.

(** Undoing a bulk soft delete.  When the queryset does not select on the
    deleted column and none of the rows it selects (for the recipient) is
    deleted, mark_all_as_deleted followed by mark_all_as_active on the
    same queryset gives the table back, and both return the same
    number. *)
Theorem soft_delete_then_restore cfg (Hsoft : SOFT_DELETE cfg = true)
    (recipient_arg : option ModelObj) (self : QuerySet) (db : DB)
    (Hself : forall v r, self (set_deleted v r) = self r)
    (Hactive : forall r, In r (rows db) -> self r = true ->
                         recipient_is recipient_arg r = true ->
                         deleted r = VBool false) :
  exists n db1 db2,
    NotificationQuerySet.mark_all_as_deleted cfg recipient_arg self db
      = (Ok n, db1)
    /\ NotificationQuerySet.mark_all_as_active cfg recipient_arg self db1
      = (Ok n, db2)
    /\ rows db2 = rows db.
Proof.
  pose (q := match recipient_arg with
             | Some u => fun r => self r && lookup_matches "deleted" (VBool false) r
                                  && lookup_matches "recipient" (VInt (pk u)) r
             | None => fun r => self r && lookup_matches "deleted" (VBool false) r
             end).
  pose (q' := match recipient_arg with
              | Some u => fun r => self r && lookup_matches "deleted" (VBool true) r
                                   && lookup_matches "recipient" (VInt (pk u)) r
              | None => fun r => self r && lookup_matches "deleted" (VBool true) r
              end).
  assert (Hrun : forall d,
    NotificationQuerySet.mark_all_as_deleted cfg recipient_arg self d =
    qs_update [("deleted", VBool true)] q d).
  { intros d. unfold NotificationQuerySet.mark_all_as_deleted,
      NotificationQuerySet.active, assert_soft_delete, is_soft_delete.
    rewrite Hsoft. subst q. destruct recipient_arg; reflexivity. }
  assert (Hback : forall d,
    NotificationQuerySet.mark_all_as_active cfg recipient_arg self d =
    qs_update [("deleted", VBool false)] q' d).
  { intros d. unfold NotificationQuerySet.mark_all_as_active,
      NotificationQuerySet.deleted, assert_soft_delete, is_soft_delete.
    rewrite Hsoft. subst q'. destruct recipient_arg; reflexivity. }
  rewrite Hrun, (qs_update_column "deleted" c_deleted) by reflexivity.
  eexists; eexists; eexists. split; [reflexivity|].
  rewrite Hback, (qs_update_column "deleted" c_deleted) by reflexivity.
  cbn [rows next_id writes].
  assert (Hq : forall r, q r = self r && recipient_is recipient_arg r
                               && value_eqb (deleted r) (VBool false)).
  { subst q q'. destruct recipient_arg; same_condition. }
  assert (Hq' : forall r, q' r = self r && recipient_is recipient_arg r
                                && value_eqb (deleted r) (VBool true)).
  { subst q q'. destruct recipient_arg; same_condition. }
  assert (Hstep : forall r, In r (rows db) ->
            q' (if q r then set_deleted (VBool true) r else r) = q r
            /\ (if q' (if q r then set_deleted (VBool true) r else r)
                then set_deleted (VBool false)
                       (if q r then set_deleted (VBool true) r else r)
                else (if q r then set_deleted (VBool true) r else r)) = r).
  { intros r Hr. destruct (q r) eqn:Eq.
    - pose proof Eq as Eq0. rewrite Hq in Eq.
      apply andb_true_iff in Eq. destruct Eq as [Eq Hd].
      apply andb_true_iff in Eq. destruct Eq as [Hs Hrc].
      apply value_eqb_bool in Hd.
      assert (E : q' (set_deleted (VBool true) r) = true).
      { rewrite Hq', Hself, Hs.
        destruct recipient_arg; simpl in *; now rewrite ?Hrc. }
      rewrite E. split; [reflexivity|].
      transitivity (set_deleted (deleted r) r); [|apply set_deleted_same].
      rewrite Hd. reflexivity.
    - assert (E : q' r = false).
      { rewrite Hq'. rewrite Hq in Eq.
        destruct (self r) eqn:Hs; [|reflexivity].
        destruct (recipient_is recipient_arg r) eqn:Hrc; [|reflexivity].
        rewrite (Hactive r Hr Hs Hrc). reflexivity. }
      rewrite E. split; reflexivity. }
  split.
  - f_equal. f_equal. f_equal.
    apply length_filter_map. intros r Hr. apply (Hstep r Hr).
  - rewrite map_map. rewrite <- (map_id (rows db)) at 2.
    apply map_ext_in. intros r Hr. apply (Hstep r Hr).
Qed.

Lemma soft_delete_then_restore_witness :
  exists n db1 db2,
    NotificationQuerySet.mark_all_as_deleted settings_soft (Some carol) objects
      sample_db = (Ok n, db1)
    /\ NotificationQuerySet.mark_all_as_active settings_soft (Some carol) objects
      db1 = (Ok n, db2)
    /\ rows db2 = rows sample_db.
Proof.
  apply (soft_delete_then_restore settings_soft eq_refl (Some carol) objects
           sample_db).
  - reflexivity.
  - simpl. intros r [<-|[<-|[<-|[<-|[]]]]] _ H; try discriminate H; reflexivity.
Defined.

(** ** AbstractNotification: a stored instance *)

Lemma unique_row n r l :
  NoDup (map id l) -> In n l -> In r l -> id r = id n -> r = n.
Proof.
  induction l as [|x l IH]; simpl; intros Hnd Hn Hr Hid; [contradiction|].
  inversion Hnd as [|y ys Hx Hnd']; subst.
  destruct Hn as [->|Hn], Hr as [->|Hr]; auto.
  - exfalso. apply Hx. rewrite <- Hid. now apply in_map.
  - exfalso. apply Hx. rewrite Hid. now apply in_map.
Qed.

Lemma replace_self i n l :
  NoDup (map id l) -> In n l -> id n = VInt i ->
  map (fun r => if has_id i r then n else r) l = l.
Proof.
  intros Hnd Hn Hid. rewrite <- (map_id l) at 2.
  apply map_ext_in. intros r Hr.
  destruct (has_id i r) eqn:E; [|reflexivity].
  apply has_id_true in E. symmetry. apply (unique_row n r l); congruence.
Qed.

Lemma save_stored n n' i db :
  In n (rows db) -> id n = VInt i -> id n' = VInt i ->
  save n' db =
  (Ok n', {| rows := map (fun r => if has_id i r then n' else r) (rows db);
             next_id := next_id db;
             writes := S (writes db) |}).
Proof.
  intros Hin Hid Hid'. unfold save. rewrite Hid'.
  now rewrite (existsb_has_id i n).
Qed.

(** mark_as_read on a stored unread notification writes it back in
    place: the table keeps its length, the row under that key is now
    read, every other row is as before; and mark_as_unread on the result
    gives the original instance and the original table back. *)
Theorem mark_as_read_stored (n : Notification) (i : Z) (db : DB)
    (Huniq : NoDup (map id (rows db)))
    (Hin : In n (rows db))
    (Hid : id n = VInt i)
    (Hunread : unread n = VBool true) :
  exists db1 db2,
    AbstractNotification.mark_as_read n db
      = (Ok (set_unread (VBool false) n), db1)
    /\ List.length (rows db1) = List.length (rows db)
    /\ In (set_unread (VBool false) n) (rows db1)
    /\ (forall r, In r (rows db) -> id r <> VInt i -> In r (rows db1))
    /\ (forall r, In r (rows db1) -> id r <> VInt i -> In r (rows db))
    /\ AbstractNotification.mark_as_unread (set_unread (VBool false) n) db1
      = (Ok n, db2)
    /\ rows db2 = rows db.
Proof.
  unfold AbstractNotification.mark_as_read, AbstractNotification.mark_as_unread.
  rewrite Hunread. cbn [truthy unread set_unread negb].
  rewrite (save_stored n (set_unread (VBool false) n) i db) by auto.
  eexists; eexists; split; [reflexivity|]. cbn [rows].
  split; [apply length_map|].
  split; [|split; [|split]].
  - apply in_map_iff. exists n. split; [|exact Hin].
    now rewrite (proj2 (has_id_true i n) Hid).
  - intros r Hr Hne. apply in_map_iff. exists r. split; [|exact Hr].
    destruct (has_id i r) eqn:E; [|reflexivity].
    apply has_id_true in E. contradiction.
  - intros r Hr Hne. apply in_map_iff in Hr. destruct Hr as (r0 & Hr0 & Hin0).
    destruct (has_id i r0); [|now subst]. subst r. contradiction.
  - assert (Hback : set_unread (VBool true) (set_unread (VBool false) n) = n).
    { transitivity (set_unread (unread n) n); [|apply set_unread_same].
      rewrite Hunread. reflexivity. }
    rewrite Hback.
    assert (Hin1 : In (set_unread (VBool false) n)
                     (map (fun r => if has_id i r
                                    then set_unread (VBool false) n else r)
                        (rows db))).
    { apply in_map_iff. exists n. split; [|exact Hin].
      now rewrite (proj2 (has_id_true i n) Hid). }
    match goal with
    | |- context [save n ?d] =>
        rewrite (save_stored (set_unread (VBool false) n) n i d Hin1 Hid Hid)
    end.
    split; [reflexivity|]. cbn [rows]. rewrite map_map.
    rewrite <- (replace_self i n (rows db) Huniq Hin Hid) at 2.
    apply map_ext. intros r.
    destruct (has_id i r) eqn:E; [|now rewrite E].
    now rewrite (proj2 (has_id_true i (set_unread (VBool false) n)) Hid).
Qed.

Lemma mark_as_read_stored_witness :
  exists db1 db2,
    AbstractNotification.mark_as_read (stored 1 2 true false) sample_db
      = (Ok (stored 1 2 false false), db1)
    /\ AbstractNotification.mark_as_unread (stored 1 2 false false) db1
      = (Ok (stored 1 2 true false), db2)
    /\ rows db2 = rows sample_db.
Proof.
  destruct (mark_as_read_stored (stored 1 2 true false) 1 sample_db)
    as (db1 & db2 & H1 & _ & _ & _ & _ & H2 & H3).
  - repeat constructor; simpl; intuition discriminate.
  - simpl. now left.
  - reflexivity.
  - reflexivity.
  - exists db1, db2. repeat split; assumption.
Defined.

(** ** Views: who may act, and on what *)

(** An anonymous request to an action view is bounced to the login page
    and nothing is read or written. *)
Theorem action_views_require_login cfg allowed iri (slug : option Z)
    (request : HttpRequest) (db : DB) (Hanon : user request = None) :
  Views.mark_all_as_read cfg allowed iri request db = (Ok RedirectLogin, db)
  /\ Views.delete_all cfg allowed iri request db = (Ok RedirectLogin, db)
  /\ Views.delete cfg allowed iri slug request db = (Ok RedirectLogin, db)
  /\ Views.mark_as_unread cfg allowed iri slug request db = (Ok RedirectLogin, db).
Proof.
  unfold Views.mark_all_as_read, Views.delete_all, Views.delete,
    Views.mark_as_unread, login_required, is_authenticated.
  rewrite Hanon. repeat split.
Qed.

Lemma action_views_require_login_witness :
  Views.delete settings_hard (fun _ _ => true) (fun url => url)
    (Some (id2slug 1)) (request_of None) sample_db
  = (Ok RedirectLogin, sample_db).
Proof.
  apply (action_views_require_login settings_hard (fun _ _ => true)
           (fun url => url) (Some (id2slug 1)) (request_of None) sample_db).
  reflexivity.
Defined.

Lemma filter_none (q : QuerySet) l :
  (forall r, In r l -> q r = false) -> filter q l = [].
Proof.
  induction l as [|r l IH]; simpl; intros H; [reflexivity|].
  rewrite (H r (or_introl eq_refl)). apply IH. intros; apply H; now right.
Qed.

Lemma get_object_or_404_missing db u i :
  (forall r, In r (rows db) -> recipient r = VInt u -> id r <> VInt i) ->
  get_object_or_404 [("recipient", VInt u); ("id", VInt i)] db
  = (Raise Http404, db).
Proof.
  intros H. unfold get_object_or_404. simpl. unfold qs_rows.
  rewrite filter_none; [reflexivity|].
  intros r Hr. unfold objects. lookups_to_columns. simpl.
  destruct (value_eqb (recipient r) (VInt u)) eqn:E1; [|reflexivity].
  destruct (value_eqb (id r) (VInt i)) eqn:E2; [|reflexivity].
  apply value_eqb_int in E1, E2. exfalso. now apply (H r).
Qed.

(** A signed-in user who names no slug, or a slug that belongs to none of
    their own notifications (an unknown key, or somebody else's
    notification), gets not-found from delete and from mark_as_unread,
    and the table is left as it was. *)
Theorem single_notification_views_not_found cfg allowed iri
    (request : HttpRequest) (u : ModelObj) (db : DB)
    (Hauth : user request = Some u) :
  Views.delete cfg allowed iri None request db = (Raise Http404, db)
  /\ Views.mark_as_unread cfg allowed iri None request db = (Raise Http404, db)
  /\ forall slug,
       (forall r, In r (rows db) -> recipient r = VInt (pk u) ->
                  id r <> VInt (slug2id slug)) ->
       Views.delete cfg allowed iri (Some slug) request db = (Raise Http404, db)
       /\ Views.mark_as_unread cfg allowed iri (Some slug) request db
          = (Raise Http404, db).
Proof.
  unfold Views.delete, Views.mark_as_unread, login_required,
    is_authenticated, user_id.
  rewrite Hauth. split; [reflexivity|]. split; [reflexivity|].
  intros slug H. unfold bind.
  rewrite (get_object_or_404_missing db (pk u) (slug2id slug) H).
  split; reflexivity.
Qed.

Lemma single_notification_views_not_found_witness :
  Views.delete settings_hard (fun _ _ => true) (fun url => url)
    (Some (id2slug 4)) (request_of (Some bob)) sample_db
  = (Raise Http404, sample_db).
Proof.
  destruct (single_notification_views_not_found settings_hard
              (fun _ _ => true) (fun url => url) (request_of (Some bob)) bob
              sample_db eq_refl) as (_ & _ & H).
  apply (H (id2slug 4)).
  simpl. intros r [<-|[<-|[<-|[<-|[]]]]] Hr; try discriminate Hr;
    discriminate.
Defined.

(** The slug shown for one of the user's own read notifications, sent
    back to mark_as_unread, marks that notification unread and no other:
    the row under its key is the instance with unread = true, every other
    row is as before, and the view redirects. *)
Theorem mark_as_unread_view cfg allowed iri (request : HttpRequest)
    (u : ModelObj) (n : Notification) (s : Z) (db : DB)
    (Hauth : user request = Some u)
    (Huniq : NoDup (map id (rows db)))
    (Hin : In n (rows db))
    (Hslug : AbstractNotification.slug n = Some s)
    (Hrec : recipient n = VInt (pk u))
    (Hread : unread n = VBool false) :
  exists db',
    Views.mark_as_unread cfg allowed iri (Some s) request db
    = (Ok (Views.redirect_next cfg allowed iri request "notifications:unread"),
       db')
    /\ List.length (rows db') = List.length (rows db)
    /\ In (set_unread (VBool true) n) (rows db')
    /\ (forall r, In r (rows db) -> id r <> id n -> In r (rows db'))
    /\ (forall r, In r (rows db') -> id r <> id n -> In r (rows db)).
Proof.
  unfold AbstractNotification.slug in Hslug.
  destruct (id n) as [| |i| | | | |] eqn:Hid; try discriminate.
  injection Hslug as <-.
  unfold Views.mark_as_unread, login_required, is_authenticated, user_id.
  rewrite Hauth. unfold bind at 1.
  replace (slug2id (id2slug i)) with i by (unfold slug2id, id2slug; lia).
  rewrite (get_object_or_404_found db n i (pk u)) by assumption.
  unfold bind, AbstractNotification.mark_as_unread.
  rewrite Hread. cbn [truthy negb].
  rewrite (save_stored n (set_unread (VBool true) n) i db) by auto.
  eexists; split; [reflexivity|]. cbn [rows].
  split; [apply length_map|].
  split; [|split].
  - apply in_map_iff. exists n. split; [|exact Hin].
    now rewrite (proj2 (has_id_true i n) Hid).
  - intros r Hr Hne. apply in_map_iff. exists r. split; [|exact Hr].
    destruct (has_id i r) eqn:E; [|reflexivity].
    apply has_id_true in E. contradiction.
  - intros r Hr Hne. apply in_map_iff in Hr. destruct Hr as (r0 & Hr0 & Hin0).
    destruct (has_id i r0); [|now subst]. subst r. contradiction.
Qed.

Lemma mark_as_unread_view_witness :
  exists db',
    Views.mark_as_unread settings_hard (fun _ _ => true) (fun url => url)
      (Some (id2slug 2)) (request_of (Some bob)) sample_db
    = (Ok (RedirectRoute "notifications:unread"), db')
    /\ In (stored 2 2 true false) (rows db').
Proof.
  destruct (mark_as_unread_view settings_hard (fun _ _ => true)
              (fun url => url) (request_of (Some bob)) bob
              (stored 2 2 false false) (id2slug 2) sample_db)
    as (db' & Hrun & _ & Hrow & _); try reflexivity.
  - repeat constructor; simpl; intuition discriminate.
  - simpl. tauto.
  - exists db'. split; [exact Hrun|exact Hrow].
Defined.

(** The mark-all-as-read view acts on the requesting user's rows only:
    each of their unread rows becomes read, deleted or not, and every
    other row of the table, in particular every row of another user, is
    as before. *)
Theorem mark_all_as_read_view cfg allowed iri (request : HttpRequest)
    (u : ModelObj) (db : DB) (Hauth : user request = Some u) :
  exists db',
    Views.mark_all_as_read cfg allowed iri request db
    = (Ok (Views.redirect_next cfg allowed iri request "notifications:unread"),
       db')
    /\ List.length (rows db') = List.length (rows db)
    /\ (forall i r,
          nth_error (rows db) i = Some r ->
          recipient r = VInt (pk u) -> unread r = VBool true ->
          nth_error (rows db') i = Some (set_unread (VBool false) r))
    /\ (forall i r,
          nth_error (rows db) i = Some r ->
          recipient r <> VInt (pk u) \/ unread r <> VBool true ->
          nth_error (rows db') i = Some r).
Proof.
  unfold Views.mark_all_as_read, login_required, is_authenticated, user_id.
  rewrite Hauth.
  unfold bind at 1. unfold lift at 1. cbn [qs_filter is_field column_of_name
    String.eqb Ascii.eqb Bool.eqb].
  unfold bind at 1. rewrite mark_all_as_read_unfold, qs_update_unread.
  unfold ret. eexists; split; [reflexivity|]. cbn [rows].
  split; [apply length_map|]. split.
  - intros i r Hi Hrc Hu. rewrite nth_error_map, Hi. cbn [option_map].
    unfold objects. lookups_to_columns. rewrite Hrc, Hu. simpl.
    now rewrite Z.eqb_refl.
  - intros i r Hi Hno. rewrite nth_error_map, Hi. cbn [option_map].
    unfold objects. lookups_to_columns.
    destruct (value_eqb (recipient r) (VInt (pk u))) eqn:E1;
      [|reflexivity].
    destruct (value_eqb (unread r) (VBool true)) eqn:E2; [|reflexivity].
    apply value_eqb_int in E1. apply value_eqb_bool in E2.
    destruct Hno; contradiction.
Qed.

Lemma mark_all_as_read_view_witness :
  exists db',
    Views.mark_all_as_read settings_soft (fun _ _ => true) (fun url => url)
      (request_of (Some bob)) sample_db
    = (Ok (RedirectRoute "notifications:unread"), db')
    /\ map unread (rows db') = [VBool false; VBool false; VBool false; VBool true].
Proof.
  destruct (mark_all_as_read_view settings_soft (fun _ _ => true)
              (fun url => url) (request_of (Some bob)) bob sample_db eq_refl)
    as (db' & Hrun & _).
  exists db'. split; [exact Hrun|].
  injection Hrun as <-. reflexivity.
Defined.

(** ** Views: where they redirect to *)

Lemma redirect_next_safe cfg allowed iri request default url :
  Views.redirect_next cfg allowed iri request default = Redirect url ->
  exists next_url,
    GET_get "next" (GET request) = Some next_url
    /\ next_url <> EmptyString
    /\ allowed next_url (ALLOWED_HOSTS cfg) = true
    /\ url = iri next_url.
Proof.
  unfold Views.redirect_next.
  destruct (GET_get "next" (GET request)) as [nxt|]; [|discriminate].
  destruct (String.eqb nxt EmptyString) eqn:E; [discriminate|]. simpl.
  destruct (allowed nxt (ALLOWED_HOSTS cfg)) eqn:Ha; [|discriminate].
  intros H. injection H as <-. exists nxt. repeat split; auto.
  intros ->. discriminate.
Qed.

(** No open redirect: whenever mark_all_as_read, delete or mark_as_unread
    answers with a redirect to a URL, that URL is the request's [next]
    parameter, which is not empty and which the host check accepted for
    the configured allowed hosts. *)
Theorem action_views_redirect_only_to_allowed cfg allowed iri
    (slug : option Z) (request : HttpRequest) (db db' : DB) (url : string) :
  Views.mark_all_as_read cfg allowed iri request db = (Ok (Redirect url), db')
  \/ Views.delete cfg allowed iri slug request db = (Ok (Redirect url), db')
  \/ Views.mark_as_unread cfg allowed iri slug request db
     = (Ok (Redirect url), db') ->
  exists next_url,
    GET_get "next" (GET request) = Some next_url
    /\ next_url <> EmptyString
    /\ allowed next_url (ALLOWED_HOSTS cfg) = true
    /\ url = iri next_url.
Proof.
  unfold Views.mark_all_as_read, Views.delete, Views.mark_as_unread,
    login_required.
  destruct (is_authenticated request);
    [|intros [H|[H|H]]; discriminate H].
  intros [H|[H|H]].
  - unfold bind, lift, ret in H.
    destruct (qs_filter _ objects) as [qs|e]; [|discriminate].
    destruct (NotificationQuerySet.mark_all_as_read cfg None qs db)
      as [[z|e] d]; [|discriminate].
    injection H as H _. now apply redirect_next_safe in H.
  - destruct slug as [slug|]; [|discriminate].
    unfold bind, ret in H.
    destruct (get_object_or_404 _ db) as [[n|e] d]; [|discriminate].
    destruct (SOFT_DELETE cfg).
    + destruct (save _ d) as [[n'|e] d']; [|discriminate].
      injection H as H _. now apply redirect_next_safe in H.
    + destruct (delete_instance n d) as [[[]|e] d']; [|discriminate].
      injection H as H _. now apply redirect_next_safe in H.
  - destruct slug as [slug|]; [|discriminate].
    unfold bind, ret in H.
    destruct (get_object_or_404 _ db) as [[n|e] d]; [|discriminate].
    destruct (AbstractNotification.mark_as_unread n d) as [[n'|e] d'];
      [|discriminate].
    injection H as H _. now apply redirect_next_safe in H.
Qed.

(** ** Views: the unread list and the counts *)

(** The unread list view shows the requesting user's rows with
    unread = true, deleted ones included whatever the soft-delete
    setting; the unread-count endpoint returns the number of exactly
    these rows and the all-count endpoint the number of all the user's
    rows; neither endpoint changes the store. *)
Theorem unread_list_and_counts (request : HttpRequest) (u : ModelObj)
    (db : DB) (Hauth : user request = Some u) :
  exists qs,
    Views.UnreadNotificationsList_get_queryset request = Ok qs
    /\ (forall r, In r (qs_rows qs db) <->
                  In r (rows db) /\ recipient r = VInt (pk u)
                  /\ unread r = VBool true)
    /\ Views.live_unread_notification_count request db
       = (Ok (JsonResponse
                [("unread_count", VInt (Z.of_nat (List.length (qs_rows qs db))))]),
          db)
    /\ Views.live_all_notification_count request db
       = (Ok (JsonResponse
                [("all_count",
                  VInt (Z.of_nat (List.length
                    (filter (fun r => value_eqb (recipient r) (VInt (pk u)))
                       (rows db)))))]),
          db).
Proof.
  unfold Views.UnreadNotificationsList_get_queryset,
    Views.live_unread_notification_count, Views.live_all_notification_count,
    is_authenticated, user_id.
  rewrite Hauth. eexists; split; [reflexivity|].
  split; [|split; reflexivity].
  intros r. rewrite In_qs_rows. unfold objects. lookups_to_columns.
  rewrite !andb_true_iff, value_eqb_int, value_eqb_bool. tauto.
Qed.

Lemma unread_list_and_counts_witness :
  Views.live_unread_notification_count (request_of (Some bob)) sample_db
  = (Ok (JsonResponse [("unread_count", VInt 2)]), sample_db).
Proof.
  destruct (unread_list_and_counts (request_of (Some bob)) bob sample_db
              eq_refl) as (qs & Hqs & _ & Hcount & _).
  rewrite Hcount. injection Hqs as <-. reflexivity.
Defined.

(** ** Admin: the mark-unread action *)

(** On a table whose unread column holds booleans, the admin action
    leaves the same rows behind as mark_all_as_unread on the same
    selection: every selected row is unread afterwards and no other row
    or column is touched. *)
Theorem admin_mark_unread cfg (request : HttpRequest) (queryset : QuerySet)
    (db : DB)
    (Hbool : forall r, In r (rows db) -> is_bool (unread r) = true) :
  exists n db1 db2,
    Admin.mark_unread request queryset db = (Ok VNone, db1)
    /\ NotificationQuerySet.mark_all_as_unread cfg None queryset db
       = (Ok n, db2)
    /\ rows db1 = rows db2
    /\ rows db1 =
       map (fun r => if queryset r then set_unread (VBool true) r else r)
         (rows db).
Proof.
  unfold Admin.mark_unread, NotificationQuerySet.mark_all_as_unread,
    NotificationQuerySet.read.
  rewrite andb_false_r. unfold bind, lift, ret.
  cbn [qs_filter is_field column_of_name String.eqb Ascii.eqb Bool.eqb
       filter_recipient].
  rewrite !qs_update_unread.
  eexists; eexists; eexists. split; [reflexivity|]. split; [reflexivity|].
  cbn [rows]. split; [|reflexivity].
  apply map_ext_in. intros r Hr. lookups_to_columns.
  destruct (queryset r); [|reflexivity]. simpl.
  specialize (Hbool r Hr).
  destruct (unread r) as [|[]| | | | | |] eqn:Hu; try discriminate; simpl.
  - rewrite <- Hu. apply set_unread_same.
  - reflexivity.
Qed.

Lemma admin_mark_unread_witness :
  exists db1,
    Admin.mark_unread (request_of (Some alice)) objects sample_db
    = (Ok VNone, db1)
    /\ map unread (rows db1) = [VBool true; VBool true; VBool true; VBool true].
Proof.
  destruct (admin_mark_unread settings_hard (request_of (Some alice)) objects
              sample_db) as (n & db1 & db2 & H1 & _ & _ & Hrows).
  - simpl. intros r [<-|[<-|[<-|[<-|[]]]]]; reflexivity.
  - exists db1. split; [exact H1|]. rewrite Hrows. reflexivity.
Defined.

Lemma action_views_redirect_only_to_allowed_witness :
  exists next_url,
    GET_get "next" [("next", "/inbox/")] = Some next_url
    /\ next_url <> EmptyString
    /\ true = true
    /\ "/inbox/" = next_url.
Proof.
  eapply (action_views_redirect_only_to_allowed settings_hard
            (fun _ _ => true) (fun url => url) None
            {| user := Some bob; GET := [("next", "/inbox/")] |} sample_db).
  left. reflexivity.
Defined.

(** ** notify_handler: the call as a whole *)

(** The handler, once it has found a recipient and a sender, is the
    loop over the recipients' ids with the options read from [kwargs]
    and the keywords it has not popped. *)
Lemma notify_handler_unfold cfg now verb_text kwargs to actor :
  kw_get "recipient" kwargs = Some to ->
  kw_get "sender" kwargs = Some actor ->
  notify_handler cfg now verb_text kwargs =
  bind (lift (recipient_ids (recipients_of to))) (fun recipients =>
    notify_loop cfg verb_text (options_of now kwargs) recipients
      (leftover kwargs) []).
Proof.
  intros Hrecipient Hsender.
  unfold notify_handler.
  rewrite !kw_pop_default_remove. cbv beta iota zeta.
  unfold kw_pop. kw_other. rewrite Hrecipient.
  unfold bind at 1. unfold lift at 1. cbv beta iota.
  kw_other. rewrite Hsender.
  unfold bind at 1. unfold lift at 1. cbv beta iota.
  rewrite !kw_pop_default_remove. cbv beta iota zeta.
  kw_other. unfold options_of, kw_default, leftover. cbn [fold_left].
  rewrite Hsender. reflexivity.
Qed.

Lemma notify_handler_missing_keyword_aux cfg now verb_text kwargs db :
  (kw_get "recipient" kwargs = None ->
   notify_handler cfg now verb_text kwargs db
   = (Raise (KeyError "recipient"), db))
  /\ (forall to, kw_get "recipient" kwargs = Some to ->
      kw_get "sender" kwargs = None ->
      notify_handler cfg now verb_text kwargs db
      = (Raise (KeyError "sender"), db)).
Proof.
  split.
  - intros H. unfold notify_handler.
    rewrite !kw_pop_default_remove. cbv beta iota zeta.
    unfold kw_pop. kw_other. rewrite H. reflexivity.
  - intros to Hto H. unfold notify_handler.
    rewrite !kw_pop_default_remove. cbv beta iota zeta.
    unfold kw_pop. kw_other. rewrite Hto.
    unfold bind at 1. unfold lift at 1. cbv beta iota.
    kw_other. rewrite H. reflexivity.
Qed.

(** A call without a recipient or without a sender raises KeyError for
    that keyword and writes nothing. *)
Theorem notify_handler_missing_keyword cfg now verb_text kwargs db :
  (kw_get "recipient" kwargs = None ->
   notify_handler cfg now verb_text kwargs db
   = (Raise (KeyError "recipient"), db))
  /\ (forall to, kw_get "recipient" kwargs = Some to ->
      kw_get "sender" kwargs = None ->
      notify_handler cfg now verb_text kwargs db
      = (Raise (KeyError "sender"), db)).
Proof. apply notify_handler_missing_keyword_aux. Qed.

(** A call for an empty list of recipients, or for a group without
    members, returns the empty list and writes nothing; the sender and
    the optional objects are not even looked at. *)
Theorem notify_handler_no_recipients cfg now verb_text kwargs db to actor
    (Hrecipient : kw_get "recipient" kwargs = Some to)
    (Hempty : recipients_of to = [])
    (Hsender : kw_get "sender" kwargs = Some actor) :
  notify_handler cfg now verb_text kwargs db = (Ok [], db).
Proof.
  rewrite (notify_handler_unfold cfg now verb_text kwargs to actor)
    by assumption.
  rewrite Hempty. reflexivity.
Qed.

Lemma notify_handler_no_recipients_witness :
  notify_handler settings_hard 1000 "commented"
    [("sender", VInt 5); ("recipient", VList []); ("target", VStr "post")]
    sample_db
  = (Ok [], sample_db).
Proof.
  apply (notify_handler_no_recipients settings_hard 1000 "commented" _
           sample_db (VList []) (VInt 5)); reflexivity.
Defined.

(** ** notify_handler: a call that raises writes nothing *)









(** ** notify_handler: extra keywords without the JSON field *)

Lemma kw_get_app_absent key (a b : Kwargs) :
  ~ In key (kw_keys b) -> kw_get key (a ++ b) = kw_get key a.
Proof.
  intros H. induction a as [|[k v] a IH]; simpl.
  - now apply kw_get_None_keys.
  - destruct (String.eqb k key); [reflexivity|exact IH].
Qed.

Lemma kw_remove_app_absent key (a b : Kwargs) :
  ~ In key (kw_keys b) -> kw_remove key (a ++ b) = kw_remove key a ++ b.
Proof.
  intros H. unfold kw_remove. rewrite filter_app. f_equal.
  apply (kw_remove_absent key b). now apply kw_get_None_keys.
Qed.

Section Extras.

Variable extra : Kwargs.
Hypothesis extra_names : forall k, In k (kw_keys extra) -> ~ In k option_names.

Lemma extra_not_option k : In k option_names -> ~ In k (kw_keys extra).
Proof. intros Hk Hin. now apply (extra_names k). Qed.

Ltac option_name := apply extra_not_option; simpl; tauto.

Lemma leftover_app kwargs : leftover (kwargs ++ extra) = leftover kwargs ++ extra.
Proof.
  unfold leftover. cbn [fold_left].
  repeat (rewrite kw_remove_app_absent by option_name). reflexivity.
Qed.

Lemma options_of_app now kwargs :
  options_of now (kwargs ++ extra) = options_of now kwargs.
Proof.
  unfold options_of, kw_default.
  repeat (rewrite kw_get_app_absent by option_name). reflexivity.
Qed.

(** The optional objects of a call do not see the extra keywords. *)
Lemma set_optional_objs_app target action_object n kw :
  set_optional_objs [(target, "target"); (action_object, "action_object")]
    n (kw ++ extra)
  = rbind (set_optional_objs
             [(target, "target"); (action_object, "action_object")] n kw)
      (fun '(n', kw') => Ok (n', kw' ++ extra)).
Proof.
  assert (Ht : ~ In "target_for_concrete_model" (kw_keys extra))
    by option_name.
  assert (Ha : ~ In "action_object_for_concrete_model" (kw_keys extra))
    by option_name.
  destruct target, action_object;
    cbn [set_optional_objs append attr_pk get_for_model rbind];
    rewrite ?kw_pop_default_remove;
    cbn [set_optional_objs append attr_pk get_for_model rbind];
    rewrite ?kw_pop_default_remove;
    rewrite ?(kw_get_app_absent _ _ _ Ht), ?(kw_get_app_absent _ _ _ Ha),
      ?(kw_remove_app_absent _ _ _ Ht), ?(kw_remove_app_absent _ _ _ Ha);
    cbn [rbind]; try reflexivity;
    rewrite ?(kw_get_app_absent _ _ _ Ht), ?(kw_get_app_absent _ _ _ Ha),
      ?(kw_remove_app_absent _ _ _ Ht), ?(kw_remove_app_absent _ _ _ Ha);
    reflexivity.
Qed.

Lemma build_notification_app cfg verb_text now kwargs to kw :
  USE_JSONFIELD cfg = false ->
  build_notification cfg verb_text (options_of now kwargs) to (kw ++ extra)
  = rbind (build_notification cfg verb_text (options_of now kwargs) to kw)
      (fun '(n, kw') => Ok (n, kw' ++ extra)).
Proof.
  intros Hjson. unfold build_notification. rewrite Hjson.
  destruct (get_for_model _ _) as [ct|e]; [|reflexivity].
  destruct (attr_pk _) as [apk|e]; [|reflexivity].
  cbn [rbind opt_optional_objs options_of].
  rewrite set_optional_objs_app.
  destruct (set_optional_objs _ _ kw) as [[a ka]|e]; [|reflexivity].
  cbn [rbind]. rewrite !andb_false_r. reflexivity.
Qed.

Lemma notify_loop_app cfg verb_text now kwargs (Hjson : USE_JSONFIELD cfg = false)
    recipients :
  forall kw acc db,
    notify_loop cfg verb_text (options_of now kwargs) recipients (kw ++ extra)
      acc db
    = notify_loop cfg verb_text (options_of now kwargs) recipients kw acc db.
Proof.
  induction recipients as [|to rest IH]; intros kw acc db; [reflexivity|].
  cbn [notify_loop]. unfold bind at 1 3. unfold lift.
  rewrite (build_notification_app cfg verb_text now kwargs to kw Hjson).
  destruct (build_notification _ _ _ to kw) as [[n kw']|e]; [|reflexivity].
  cbn [rbind]. unfold bind.
  destruct (save n db) as [[n'|e] d]; [|reflexivity].
  apply IH.
Qed.

End Extras.

(** With the JSON field switched off, keywords the handler does not
    know are discarded: adding them to a call changes neither what the
    call returns or raises nor what it writes. *)
Theorem notify_handler_discards_extras cfg now verb_text kwargs extra db
    (Hjson : USE_JSONFIELD cfg = false)
    (Hextra : forall k, In k (kw_keys extra) -> ~ In k option_names) :
  notify_handler cfg now verb_text (kwargs ++ extra) db
  = notify_handler cfg now verb_text kwargs db.
Proof.
  assert (Hr : kw_get "recipient" (kwargs ++ extra) = kw_get "recipient" kwargs).
  { apply kw_get_app_absent. apply (extra_not_option extra Hextra).
    simpl; tauto. }
  assert (Hs : kw_get "sender" (kwargs ++ extra) = kw_get "sender" kwargs).
  { apply kw_get_app_absent. apply (extra_not_option extra Hextra).
    simpl; tauto. }
  destruct (kw_get "recipient" kwargs) as [to|] eqn:Hto.
  - destruct (kw_get "sender" kwargs) as [actor|] eqn:Hactor.
    + rewrite (notify_handler_unfold cfg now verb_text (kwargs ++ extra)
                 to actor Hr Hs).
      rewrite (notify_handler_unfold cfg now verb_text kwargs to actor
                 Hto Hactor).
      unfold bind, lift.
      destruct (recipient_ids _) as [ids|e]; [|reflexivity].
      rewrite (leftover_app extra Hextra), (options_of_app extra Hextra).
      now apply notify_loop_app.
    + rewrite (proj2 (notify_handler_missing_keyword_aux cfg now verb_text
                        (kwargs ++ extra) db) to Hr Hs).
      now rewrite (proj2 (notify_handler_missing_keyword_aux cfg now verb_text
                            kwargs db) to Hto Hactor).
  - rewrite (proj1 (notify_handler_missing_keyword_aux cfg now verb_text
                      (kwargs ++ extra) db) Hr).
    now rewrite (proj1 (notify_handler_missing_keyword_aux cfg now verb_text
                          kwargs db) Hto).
Qed.

Lemma notify_handler_discards_extras_witness :
  notify_handler settings_hard 1000 "commented"
    ([("sender", VObj alice); ("recipient", VObj bob)]
     ++ [("unread", VBool false); ("colour", VStr "red")]) empty_db
  = notify_handler settings_hard 1000 "commented"
      [("sender", VObj alice); ("recipient", VObj bob)] empty_db.
Proof.
  apply notify_handler_discards_extras; [reflexivity|].
  simpl. intros k [<-|[<-|[]]]; intuition discriminate.
Defined.

(** ** notify_handler: what a row holds *)








Section Rows.

Variables (cfg : Settings) (now : Z) (verb_text : string) (kwargs : Kwargs).
Variables (actor to : Value) (ids : list Value).

Hypothesis Hkeys : NoDup (kw_keys kwargs).
Hypothesis Hsender : kw_get "sender" kwargs = Some actor.
Hypothesis Hactor : is_model_instance actor = true.
Hypothesis Hrecipient : kw_get "recipient" kwargs = Some to.
Hypothesis Hids : recipient_ids (recipients_of to) = Ok ids.
Hypothesis Htarget : optional_model (kw_get "target" kwargs) = true.
Hypothesis Haction : optional_model (kw_get "action_object" kwargs) = true.
Hypothesis Htflag : kw_get "target_for_concrete_model" kwargs = None.
Hypothesis Haflag : kw_get "action_object_for_concrete_model" kwargs = None.
Hypothesis Hid : kw_get "id" kwargs = None.
Hypothesis Hpk : kw_get "pk" kwargs = None.







End Rows.






